(** * Intro-to-deep-learning notebooks: dataset adapter, classifiers, steps and
      epoch loop, embedded as Rocq functions.

    The two notebooks ([1-neural-networks.ipynb], [2-pytorch-lightning.ipynb])
    are glue around PyTorch.  The embedding keeps the notebooks' own code
    (dataset wrapper, model classes, training / validation steps, the epoch
    loop) and models the PyTorch calls they make by their documented
    behaviour on shapes and exceptions.  Scalar arithmetic stays abstract
    (class [Dtype]); a binary32 instance built on [SpecFloat] is used for
    concrete runs. *)

From Stdlib Require Import String.
From Stdlib Require Import List ZArith Lia Bool Arith PeanoNat Permutation.
From Stdlib Require Import Floats.SpecFloat.
Import ListNotations.

Set Implicit Arguments.

(** ** Python exceptions and results *)

(** The exceptions the modelled calls raise.  [RuntimeError] is what
    [torch.nn.functional.linear] raises on a width mismatch and
    [ZeroDivisionError] is what [/] raises on a zero divisor; the
    specification calls them ShapeMismatch and EmptyBatch. *)
Inductive exn : Type :=
| IndexError
| RuntimeError
| ValueError
| TypeError
| ZeroDivisionError.

Definition ShapeMismatch : exn := RuntimeError.
Definition EmptyBatch : exn := ZeroDivisionError.

Inductive result (A : Type) : Type :=
| Ok (a : A)
| Raise (e : exn).
Arguments Ok {A} a.
Arguments Raise {A} e.

Definition rbind {A B} (r : result A) (k : A -> result B) : result B :=
  match r with
  | Ok a => k a
  | Raise e => Raise e
  end.

Declare Scope py_scope.
Delimit Scope py_scope with py.
Notation "'let?' x ':=' r 'in' k" := (rbind r (fun x => k))
  (at level 10, x name, r at level 100, k at level 200) : py_scope.

(** A Python computation over a mutable world [W]: the world survives a
    raised exception, as objects mutated before a [raise] stay mutated. *)
Definition M (W A : Type) : Type := W -> W * result A.

Definition ret {W A} (a : A) : M W A := fun w => (w, Ok a).
Definition raise {W A} (e : exn) : M W A := fun w => (w, Raise e).
Definition bind {W A B} (c : M W A) (k : A -> M W B) : M W B :=
  fun w => match c w with
           | (w', Ok a) => k a w'
           | (w', Raise e) => (w', Raise e)
           end.
Definition read {W} : M W W := fun w => (w, Ok w).
Definition modify {W} (f : W -> W) : M W unit := fun w => (f w, Ok tt).
Definition lift {W A} (r : result A) : M W A := fun w => (w, r).

Notation "x <- c ;; k" := (bind c (fun x => k))
  (at level 61, c at next level, right associativity) : py_scope.
Notation "c ;; k" := (bind c (fun _ => k))
  (at level 61, right associativity) : py_scope.

Open Scope py_scope.

(** [for x in xs: acc = body(acc, x)] *)
Fixpoint for_each {W A B} (xs : list A) (acc : B) (body : B -> A -> M W B)
  : M W B :=
  match xs with
  | [] => ret acc
  | x :: xs' => acc' <- body acc x ;; for_each xs' acc' body
  end.

(** Running a step on every element in list order, collecting the results. *)
Fixpoint mapM {W A B} (f : A -> M W B) (xs : list A) : M W (list B) :=
  match xs with
  | [] => ret []
  | x :: xs' => y <- f x ;; ys <- mapM f xs' ;; ret (y :: ys)
  end.

(** ** Scalars *)

(** Element type of a tensor ([torch.float32] in the notebooks). *)
Class Dtype (F : Type) : Type := {
  fzero : F;
  fadd : F -> F -> F;
  fmul : F -> F -> F;
  fmax : F -> F -> F
}.

(** Python floats as produced by [Tensor.item()] and combined by [+], [/]. *)
Class PyNumber (F P : Type) : Type := {
  item : F -> P;
  py_of_nat : nat -> P;
  py_add : P -> P -> P;
  py_div : P -> P -> P
}.

(** [x / n] for an integer [n]: [ZeroDivisionError] when [n] is [0]. *)
Definition py_truediv {F P} `{PyNumber F P} (x : P) (n : nat) : result P :=
  if Nat.eqb n 0 then Raise ZeroDivisionError else Ok (py_div x (py_of_nat n)).

(** ** Tensors *)

Module Torch.
Section Tensors.
Context {F : Type} `{Dtype F}.

(** A tensor is its shape and its elements in row-major order. *)
Record tensor : Type := mkTensor {
  shape : list nat;
  data : list F
}.

Definition numel_of (s : list nat) : nat := fold_right Nat.mul 1 s.

Definition wf_tensor (t : tensor) : Prop :=
  length (data t) = numel_of (shape t).

Definition numel (t : tensor) : nat := length (data t).

(** [torch.tensor(rows)] for a rectangular table of [ncols] columns. *)
Definition tensor2 (ncols : nat) (rows : list (list F)) : tensor :=
  {| shape := [length rows; ncols]; data := concat rows |}.

Definition tensor1 (xs : list F) : tensor :=
  {| shape := [length xs]; data := xs |}.

Definition scalar (x : F) : tensor := {| shape := []; data := [x] |}.

(** The [k] consecutive rows of width [w] of a row-major element list. *)
Fixpoint chunks (w k : nat) (l : list F) : list (list F) :=
  match k with
  | 0 => []
  | S k' => firstn w l :: chunks w k' (skipn w l)
  end.

(** The feature vectors of a batch: its rows along the last dimension. *)
Definition rows_of (t : tensor) : list (list F) :=
  match rev (shape t) with
  | [] => []
  | w :: lead => chunks w (numel_of (rev lead)) (data t)
  end.

(** [len(t)]: size of the first dimension; a 0-d tensor has no [len]. *)
Definition len (t : tensor) : result nat :=
  match shape t with
  | [] => Raise TypeError
  | d :: _ => Ok d
  end.

(** A Python integer that fits a signed 64-bit integer. *)
Definition fits_int64 (z : Z) : bool :=
  ((- 9223372036854775808 <=? z) && (z <? 9223372036854775808))%Z.

(** Python index normalisation along a dimension of size [size]:
    negative indices count from the end.  An index out of range raises
    [IndexError] when it fits a signed 64-bit integer and [ValueError]
    (overflow while unpacking the integer) when it does not.  A dimension
    is itself below [2^63], so an index within range always fits. *)
Definition wrap_index (size : nat) (idx : Z) : result nat :=
  if ((0 <=? idx) && (idx <? Z.of_nat size))%Z then Ok (Z.to_nat idx)
  else if ((- Z.of_nat size <=? idx) && (idx <? 0))%Z
       then Ok (Z.to_nat (idx + Z.of_nat size))
       else if fits_int64 idx then Raise IndexError else Raise ValueError.

(** [t[idx]] for an integer [idx]. *)
Definition getitem (t : tensor) (idx : Z) : result tensor :=
  match shape t with
  | [] => Raise IndexError
  | d :: rest =>
      let? i := wrap_index d idx in
      Ok {| shape := rest;
            data := firstn (numel_of rest) (skipn (i * numel_of rest) (data t)) |}
  end.

(** [t.squeeze()]: drops every dimension of size one. *)
Definition squeeze (t : tensor) : tensor :=
  {| shape := filter (fun d => negb (Nat.eqb d 1)) (shape t); data := data t |}.

(** [nn.ReLU()(t)] *)
Definition relu (t : tensor) : tensor :=
  {| shape := shape t; data := map (fmax fzero) (data t) |}.

(** *** nn.Linear *)

(** [weight] has [out_features] rows of [in_features] entries. *)
Record Linear : Type := mkLinear {
  in_features : nat;
  out_features : nat;
  weight : list (list F);
  bias : list F
}.

Definition wf_Linear (l : Linear) : Prop :=
  length (weight l) = out_features l /\
  Forall (fun r => length r = in_features l) (weight l) /\
  length (bias l) = out_features l.

Definition dims (l : Linear) : nat * nat := (in_features l, out_features l).

(** The products are accumulated left to right from zero.  The library's
    kernels are free to accumulate in another order, so a logit agrees with
    the library's up to the rounding of the sum. *)
Definition dot (xs ws : list F) : F :=
  fold_left (fun acc xw => fadd acc (fmul (fst xw) (snd xw)))
            (combine xs ws) fzero.

(** One input row through the affine map: [x W^T + b]. *)
Definition affine_row (l : Linear) (x : list F) : list F :=
  map (fun wb => fadd (dot x (fst wb)) (snd wb)) (combine (weight l) (bias l)).

(** [layer(x)]: applies to the last dimension, which must be
    [in_features]; anything else raises [RuntimeError]. *)
Definition linear (l : Linear) (x : tensor) : result tensor :=
  match rev (shape x) with
  | [] => Raise RuntimeError
  | w :: lead =>
      if Nat.eqb w (in_features l)
      then Ok {| shape := rev lead ++ [out_features l];
                 data := flat_map (affine_row l)
                           (chunks w (numel_of (rev lead)) (data x)) |}
      else Raise RuntimeError
  end.

End Tensors.
Arguments tensor F : clear implicits.
Arguments Linear F : clear implicits.
End Torch.
Import Torch.


(** ** Parameter initialisation *)

(** The random source [nn.Linear] draws its initial parameters from;
    [draw fan_in] yields one entry. *)
Class Initializer (F R : Type) : Type := {
  draw : nat -> R -> F * R
}.

Module Init.
Section Init.
Context {F R : Type} `{Initializer F R}.

Fixpoint draw_list (fan_in k : nat) (r : R) : list F * R :=
  match k with
  | 0 => ([], r)
  | S k' =>
      let (x, r1) := draw fan_in r in
      let (xs, r2) := draw_list fan_in k' r1 in
      (x :: xs, r2)
  end.

Fixpoint draw_rows (fan_in k : nat) (r : R) : list (list F) * R :=
  match k with
  | 0 => ([], r)
  | S k' =>
      let (row, r1) := draw_list fan_in fan_in r in
      let (rows, r2) := draw_rows fan_in k' r1 in
      (row :: rows, r2)
  end.

(** [nn.Linear(i, o)] *)
Definition nn_Linear (i o : nat) (r : R) : Linear F * R :=
  let (w, r1) := draw_rows i o r in
  let (b, r2) := draw_list i o r1 in
  ({| in_features := i; out_features := o; weight := w; bias := b |}, r2).

End Init.
End Init.
Import Init.

(** [range(k)] for a Python integer [k]: empty when [k <= 0]. *)
Definition range (k : Z) : list nat := seq 0 (Z.to_nat k).

(** ** The interpreter state shared by steps and loops *)

(** [nn.Module] as the notebooks use it: calling the module, and the
    [train()] / [eval()] switch of its [training] flag. *)
Class NNModule (F Mdl : Type) : Type := {
  call : Mdl -> tensor F -> result (tensor F);
  set_training : bool -> Mdl -> Mdl;
  is_training : Mdl -> bool
}.

Module Py.
Section World.
Context {F P : Type} `{Dtype F} `{PyNumber F P}.
Context {Mdl G O : Type} `{NNModule F Mdl}.

(** A loss tensor: its value, and the recorded graph when gradient
    tracking was on while it was computed ([grad_fn]). *)
Record loss_t : Type := mkLoss {
  value : F;
  grad_fn : option G
}.

(** The objects the notebook cells share: the model, the optimizer, the
    [.grad] buffers of the parameters, torch's grad mode, the logged
    metrics and the two loss histories. *)
Record world : Type := mkWorld {
  model : Mdl;
  optimizer : O;
  grad : option G;
  grad_enabled : bool;
  logged : list (string * F);
  train_losses : list P;
  validation_losses : list P
}.

Definition with_model (f : Mdl -> Mdl) (w : world) : world :=
  {| model := f (model w); optimizer := optimizer w; grad := grad w;
     grad_enabled := grad_enabled w; logged := logged w;
     train_losses := train_losses w;
     validation_losses := validation_losses w |}.

Definition with_grad (g : option G) (w : world) : world :=
  {| model := model w; optimizer := optimizer w; grad := g;
     grad_enabled := grad_enabled w; logged := logged w;
     train_losses := train_losses w;
     validation_losses := validation_losses w |}.

Definition with_grad_enabled (b : bool) (w : world) : world :=
  {| model := model w; optimizer := optimizer w; grad := grad w;
     grad_enabled := b; logged := logged w;
     train_losses := train_losses w;
     validation_losses := validation_losses w |}.

Definition with_logged (l : list (string * F)) (w : world) : world :=
  {| model := model w; optimizer := optimizer w; grad := grad w;
     grad_enabled := grad_enabled w; logged := l;
     train_losses := train_losses w;
     validation_losses := validation_losses w |}.

Definition with_train_losses (l : list P) (w : world) : world :=
  {| model := model w; optimizer := optimizer w; grad := grad w;
     grad_enabled := grad_enabled w; logged := logged w;
     train_losses := l;
     validation_losses := validation_losses w |}.

Definition with_validation_losses (l : list P) (w : world) : world :=
  {| model := model w; optimizer := optimizer w; grad := grad w;
     grad_enabled := grad_enabled w; logged := logged w;
     train_losses := train_losses w;
     validation_losses := l |}.

Definition with_optimizer (om : O * Mdl) (w : world) : world :=
  {| model := snd om; optimizer := fst om; grad := grad w;
     grad_enabled := grad_enabled w; logged := logged w;
     train_losses := train_losses w;
     validation_losses := validation_losses w |}.

(** What only a training step may change: the model with its parameters,
    the optimizer, the gradient buffers and the loss histories. *)
Definition frame (w w' : world) : Prop :=
  model w' = model w /\ optimizer w' = optimizer w /\ grad w' = grad w /\
  train_losses w' = train_losses w /\
  validation_losses w' = validation_losses w.

(** [model.train()] and [model.eval()] *)
Definition model_train : M world unit := modify (with_model (set_training true)).
Definition model_eval : M world unit := modify (with_model (set_training false)).

(** [with torch.no_grad(): body]: grad mode is off inside and put back
    on exit, also when [body] raises. *)
Definition no_grad {A} (body : M world A) : M world A :=
  fun w =>
    let prev := grad_enabled w in
    let (w', r) := body (with_grad_enabled false w) in
    (with_grad_enabled prev w', r).

(** The delegated services: the loss rule ([nn.BCEWithLogitsLoss()] in the
    notebooks), the gradient autograd derives for a loss computed from the
    model on a batch, the accumulation of gradients into [.grad], and the
    optimizer's update ([torch.optim.Adam] in the notebooks). *)
Variable loss_function : tensor F -> tensor F -> result F.
Variable autograd : Mdl -> tensor F -> tensor F -> G.
Variable grad_add : G -> G -> G.
Variable optimizer_update : O -> Mdl -> option G -> O * Mdl.

Definition batch : Type := (tensor F * tensor F)%type.

(** [model(x)] *)
Definition call_model (x : tensor F) : M world (tensor F) :=
  w <- read ;;
  lift (call (model w) x).

(** [loss_function(y_hat, y)] where [y_hat] was computed by the model from
    [x]: the value, with the graph back to the parameters when grad mode
    is on. *)
Definition apply_loss (x y_hat y : tensor F) : M world loss_t :=
  w <- read ;;
  v <- lift (loss_function y_hat y) ;;
  ret {| value := v;
         grad_fn := if grad_enabled w then Some (autograd (model w) x y)
                    else None |}.

(** [optimizer.zero_grad()] *)
Definition zero_grad : M world unit := modify (with_grad None).

(** [loss_value.backward()]: a loss computed with tracking off has no
    graph and raises. *)
Definition backward (l : loss_t) : M world unit :=
  match grad_fn l with
  | None => raise RuntimeError
  | Some g =>
      modify (fun w => with_grad (Some (match grad w with
                                        | None => g
                                        | Some g0 => grad_add g0 g
                                        end)) w)
  end.

(** [optimizer.step()] *)
Definition optimizer_step : M world unit :=
  modify (fun w => with_optimizer (optimizer_update (optimizer w) (model w) (grad w)) w).

(** [self.log(name, loss)] *)
Definition log (name : string) (l : loss_t) : M world unit :=
  modify (fun w => with_logged (logged w ++ [(name, value l)]) w).

End World.
Arguments loss_t F G : clear implicits.
Arguments world F P Mdl G O : clear implicits.
Arguments batch F : clear implicits.
End Py.
Import Py.

(** ** Notebook 1: dataset wrapper, linear classifier, training step,
       epoch loop *)

Module NB1.
Section Dataset.
Context {F : Type} `{Dtype F}.

(** What [__init__] reads from pandas: [features.values] is a table of
    [ncolumns] columns and [targets.values] a vector, both taken here as
    already converted to the tensor dtype. *)
Record DataFrame : Type := mkDataFrame {
  ncolumns : nat;
  values : list (list F)
}.

Definition wf_frame (df : DataFrame) : Prop :=
  Forall (fun r => length r = ncolumns df) (values df).

Record CancerDataset : Type := mkCancerDataset {
  features : tensor F;
  targets : tensor F
}.

Definition CancerDataset_init (df : DataFrame) (ts : list F) : CancerDataset :=
  {| features := tensor2 (ncolumns df) (values df);
     targets := tensor1 ts |}.

Definition CancerDataset_len (ds : CancerDataset) : result nat :=
  len (features ds).

Definition CancerDataset_getitem (ds : CancerDataset) (idx : Z)
  : result (tensor F * tensor F) :=
  let? x := getitem (features ds) idx in
  let? y := getitem (targets ds) idx in
  Ok (x, y).

End Dataset.
Arguments DataFrame F : clear implicits.
Arguments CancerDataset F : clear implicits.

Section Classifier.
Context {F : Type} `{Dtype F}.

(** [class BreastCancerClassifier(nn.Module)] with its single
    [nn.Linear(30, 1)]. *)
Record BreastCancerClassifier : Type := mkClassifier {
  layer1 : Linear F;
  training : bool
}.

Definition BreastCancerClassifier_init {R} `{Initializer F R} (r : R)
  : BreastCancerClassifier * R :=
  let (l1, r1) := nn_Linear 30 1 r in
  ({| layer1 := l1; training := true |}, r1).

Definition forward (m : BreastCancerClassifier) (x : tensor F)
  : result (tensor F) :=
  let? x := linear (layer1 m) x in
  Ok x.

#[global] Instance BreastCancerClassifier_module
  : NNModule F BreastCancerClassifier := {
  call := forward;
  set_training b m := {| layer1 := layer1 m; training := b |};
  is_training := training
}.

End Classifier.
Arguments BreastCancerClassifier F : clear implicits.

Section Loop.
Context {F P : Type} `{Dtype F} `{PyNumber F P}.
Context {Mdl G O : Type} `{NNModule F Mdl}.
Variable loss_function : tensor F -> tensor F -> result F.
Variable autograd : Mdl -> tensor F -> tensor F -> G.
Variable grad_add : G -> G -> G.
Variable optimizer_update : O -> Mdl -> option G -> O * Mdl.

(** The six-step training step of section 1.3.4 for one batch. *)
Definition train_step (b : batch F)
  : M (world F P Mdl G O) (loss_t F G) :=
  let (batch_x, batch_y) := b in
  zero_grad ;;
  y_pred <- call_model batch_x ;;
  loss_value <- apply_loss loss_function autograd batch_x (squeeze y_pred) batch_y ;;
  backward grad_add loss_value ;;
  optimizer_step optimizer_update ;;
  ret loss_value.

(** The body of the epoch loop of section 1.3.3, for one epoch.  The two
    blocks the notebook leaves to the reader ("a single training step", "a
    single validation step", each leaving the loss in [loss_value]) are the
    parameters [train_block] and [validation_block].  The accumulators
    start at the integer [0]; the result is the pair of averages the body
    appends to the histories and prints. *)
Definition run_epoch
    (train_block validation_block : batch F -> M (world F P Mdl G O) (loss_t F G))
    (dataloader_train dataloader_validation : list (batch F))
  : M (world F P Mdl G O) (P * P) :=
  model_train ;;
  epoch_loss_train <-
    for_each dataloader_train (py_of_nat 0)
      (fun acc b =>
         loss_value <- train_block b ;;
         ret (py_add acc (item (value loss_value)))) ;;
  avg_epoch_loss_train <-
    lift (py_truediv epoch_loss_train (length dataloader_train)) ;;
  modify (fun w => with_train_losses (train_losses w ++ [avg_epoch_loss_train]) w) ;;
  model_eval ;;
  epoch_loss_validation <-
    no_grad
      (for_each dataloader_validation (py_of_nat 0)
         (fun acc b =>
            loss_value <- validation_block b ;;
            ret (py_add acc (item (value loss_value))))) ;;
  avg_epoch_loss_validation <-
    lift (py_truediv epoch_loss_validation (length dataloader_validation)) ;;
  modify (fun w => with_validation_losses
                     (validation_losses w ++ [avg_epoch_loss_validation]) w) ;;
  ret (avg_epoch_loss_train, avg_epoch_loss_validation).

End Loop.
End NB1.

(** ** Train / validation split *)

Module TorchData.

(** Modelled from the spec: [torch.utils.data.random_split] is a library
    call whose code is not part of the notebooks.  The specification has a
    Split assign the dataset's indices to a train and a validation subset
    once, by random draw, at the ratio 80/20.  The library does this by
    cutting one random permutation of [range(n)] into consecutive runs of
    [floor(n * 0.8)] and [floor(n * 0.2)] indices, the leftover indices
    going to the runs in turn.  The permutation drawn is the argument
    [randperm]. *)
Definition random_split_lengths (n : nat) : nat * nat :=
  let a := n * 4 / 5 in
  let b := n / 5 in
  let remainder := n - (a + b) in
  fold_left (fun (ab : nat * nat) (i : nat) =>
               if Nat.even i then (S (fst ab), snd ab) else (fst ab, S (snd ab)))
            (seq 0 remainder) (a, b).

(** Modelled from the spec: the two index lists of the Split, the first
    [a] and the next [b] entries of the permutation drawn. *)
Definition random_split (n : nat) (randperm : list nat) : list nat * list nat :=
  let (a, b) := random_split_lengths n in
  (firstn a randperm, firstn b (skipn a randperm)).

End TorchData.


(** ** Notebook 2 *)

(** The three-layer classifier of section 2.2.1. *)
Module NB2Fixed.
Section Classifier.
Context {F : Type} `{Dtype F}.

Record BreastCancerClassifier : Type := mkClassifier {
  layer1 : Linear F;
  layer2 : Linear F;
  layer3 : Linear F;
  training : bool
}.

Definition BreastCancerClassifier_init {R} `{Initializer F R} (r : R)
  : BreastCancerClassifier * R :=
  let (l1, r1) := nn_Linear 30 20 r in
  let (l2, r2) := nn_Linear 20 10 r1 in
  let (l3, r3) := nn_Linear 10 1 r2 in
  ({| layer1 := l1; layer2 := l2; layer3 := l3; training := true |}, r3).

Definition forward (m : BreastCancerClassifier) (x : tensor F)
  : result (tensor F) :=
  let? x := linear (layer1 m) x in
  let x := relu x in
  let? x := linear (layer2 m) x in
  let x := relu x in
  let? x := linear (layer3 m) x in
  Ok x.

#[global] Instance BreastCancerClassifier_module
  : NNModule F BreastCancerClassifier := {
  call := forward;
  set_training b m :=
    {| layer1 := layer1 m; layer2 := layer2 m; layer3 := layer3 m;
       training := b |};
  is_training := training
}.

End Classifier.
Arguments BreastCancerClassifier F : clear implicits.
End NB2Fixed.

(** The configurable classifier of section 2.4. *)
Module NB2Sweep.
Section Classifier.
Context {F : Type} `{Dtype F}.

Record BreastCancerClassifier : Type := mkClassifier {
  layers : list (Linear F);
  training : bool
}.

(** [hidden_layers] is any Python integer; [hidden_neurons] is a layer
    width. *)
Definition BreastCancerClassifier_init {R} `{Initializer F R}
    (hidden_layers : Z) (hidden_neurons : nat) (r : R)
  : BreastCancerClassifier * R :=
  let layers := [] in
  let (l, r) := nn_Linear 30 hidden_neurons r in
  let layers := layers ++ [l] in
  let (layers, r) :=
    fold_left (fun (acc : list (Linear F) * R) (_ : nat) =>
                 let (l, r') := nn_Linear hidden_neurons hidden_neurons (snd acc) in
                 (fst acc ++ [l], r'))
              (range (hidden_layers - 1)) (layers, r) in
  let (l, r) := nn_Linear hidden_neurons 1 r in
  let layers := layers ++ [l] in
  ({| layers := layers; training := true |}, r).

(** [for layer in self.layers[:-1]: x = self.activation(layer(x))] *)
Fixpoint forward_hidden (ls : list (Linear F)) (x : tensor F)
  : result (tensor F) :=
  match ls with
  | [] => Ok x
  | layer :: ls' =>
      let? x := linear layer x in
      let x := relu x in
      forward_hidden ls' x
  end.

(** [self.layers[-1]] *)
Definition last_layer (ls : list (Linear F)) : result (Linear F) :=
  match rev ls with
  | [] => Raise IndexError
  | l :: _ => Ok l
  end.

Definition forward (m : BreastCancerClassifier) (x : tensor F)
  : result (tensor F) :=
  let? x := forward_hidden (removelast (layers m)) x in
  let? l := last_layer (layers m) in
  let? x := linear l x in
  Ok x.

#[global] Instance BreastCancerClassifier_module
  : NNModule F BreastCancerClassifier := {
  call := forward;
  set_training b m := {| layers := layers m; training := b |};
  is_training := training
}.

End Classifier.
Arguments BreastCancerClassifier F : clear implicits.
End NB2Sweep.

(** [class BreastCancerModule(L.LightningModule)] *)
Module NB2Lightning.
Section LightningModule.
Context {F P : Type} `{Dtype F} `{PyNumber F P}.
Context {Mdl G O : Type} `{NNModule F Mdl}.
Variable loss_fn : tensor F -> tensor F -> result F.
Variable autograd : Mdl -> tensor F -> tensor F -> G.

(** [self.model(x).squeeze()] *)
Definition forward (x : tensor F) : M (world F P Mdl G O) (tensor F) :=
  y <- call_model x ;;
  ret (squeeze y).

Definition training_step (b : batch F) (batch_idx : nat)
  : M (world F P Mdl G O) (loss_t F G) :=
  let (x, y) := b in
  y_hat <- forward x ;;
  loss <- apply_loss loss_fn autograd x y_hat y ;;
  log "train_loss" loss ;;
  ret loss.

Definition validation_step (b : batch F) (batch_idx : nat)
  : M (world F P Mdl G O) (loss_t F G) :=
  let (x, y) := b in
  y_hat <- forward x ;;
  loss <- apply_loss loss_fn autograd x y_hat y ;;
  log "val_loss" loss ;;
  ret loss.

End LightningModule.
End NB2Lightning.

(** ** Layer stacks as the specification describes them *)

Module Arch.
Section Stages.
Context {F : Type} `{Dtype F}.

Inductive stage : Type :=
| Affine (l : Linear F)
| Activation.

Definition run_stage (s : stage) (x : tensor F) : result (tensor F) :=
  match s with
  | Affine l => linear l x
  | Activation => Ok (relu x)
  end.

Fixpoint run_stages (ss : list stage) (x : tensor F) : result (tensor F) :=
  match ss with
  | [] => Ok x
  | s :: ss' => let? y := run_stage s x in run_stages ss' y
  end.

(** Every affine stage followed by the activation, except the final one. *)
Fixpoint stack (ls : list (Linear F)) : list stage :=
  match ls with
  | [] => []
  | [l] => [Affine l]
  | l :: ls' => Affine l :: Activation :: stack ls'
  end.

End Stages.
Arguments stage F : clear implicits.
End Arch.

(** ** binary32 tensors and binary64 Python floats *)

Module Float32.

Definition f32 : Type := spec_float.

Definition f32_of_Z (z : Z) : f32 := binary_normalize 24 128 z 0 false.
Definition f64_of_Z (z : Z) : spec_float := binary_normalize 53 1024 z 0 false.

(** [max(a, b)] as [nn.ReLU] takes it with [a] the zero threshold: NaN
    stays NaN, and [b] is kept unless it is below [a], so a negative zero
    stays a negative zero. *)
Definition f32_max (a b : f32) : f32 :=
  match SFcompare a b with
  | Some Gt => a
  | Some _ => b
  | None => S754_nan
  end.

#[global] Instance f32_dtype : Dtype f32 := {
  fzero := S754_zero false;
  fadd := SFadd 24 128;
  fmul := SFmul 24 128;
  fmax := f32_max
}.

(** [.item()] widens binary32 to binary64 without rounding. *)
Definition f32_item (x : f32) : spec_float :=
  match x with
  | S754_finite s m e => binary_normalize 53 1024 (cond_Zopp s (Zpos m)) e s
  | _ => x
  end.

#[global] Instance f32_pynumber : PyNumber f32 spec_float := {
  item := f32_item;
  py_of_nat n := f64_of_Z (Z.of_nat n);
  py_add := SFadd 53 1024;
  py_div := SFdiv 53 1024
}.

(** A random source that replays a fixed stream of values. *)
#[global] Instance replay_initializer : Initializer f32 (list f32) := {
  draw _ r := match r with
              | [] => (S754_zero false, [])
              | x :: r' => (x, r')
              end
}.

End Float32.

(** ** The epoch as the specification words it *)

Module EpochSpec.
Section EpochSpec.
Context {F P : Type} `{Dtype F} `{PyNumber F P}.
Context {Mdl G O : Type} `{NNModule F Mdl}.

(** Sum of the per-batch losses, in iteration order, divided by the number
    of batches. *)
Definition average (nbatches : nat) (losses : list (loss_t F G)) : P :=
  py_div (fold_left py_add (map (fun l => item (value l)) losses) (py_of_nat 0))
         (py_of_nat nbatches).

(** The specification's [run_epoch]: the train step on every train batch in
    order, then the validation step on every validation batch in order,
    returning both averages.  The mode switches and the loss histories of
    the notebook are kept, so that the steps run in the same world. *)
Definition epoch_by_spec
    (train_step validation_step : batch F -> M (world F P Mdl G O) (loss_t F G))
    (train_batches validation_batches : list (batch F))
  : M (world F P Mdl G O) (P * P) :=
  model_train ;;
  losses <- mapM train_step train_batches ;;
  let avg_train_loss := average (length train_batches) losses in
  modify (fun w => with_train_losses (train_losses w ++ [avg_train_loss]) w) ;;
  model_eval ;;
  vlosses <- no_grad (mapM validation_step validation_batches) ;;
  let avg_validation_loss := average (length validation_batches) vlosses in
  modify (fun w => with_validation_losses
                     (validation_losses w ++ [avg_validation_loss]) w) ;;
  ret (avg_train_loss, avg_validation_loss).

End EpochSpec.
End EpochSpec.

(** ** Shapes of the parameters *)

Module Shapes.
Section Shapes.
Context {F : Type} `{Dtype F}.

Definition shaped (i o : nat) (l : Linear F) : Prop :=
  wf_Linear l /\ dims l = (i, o).

(** The layer widths [BreastCancerClassifier(hidden_layers, hidden_neurons)]
    declares. *)
Definition architecture (hidden_layers : Z) (hidden_neurons : nat)
  : list (nat * nat) :=
  (30, hidden_neurons)
    :: repeat (hidden_neurons, hidden_neurons) (Z.to_nat (hidden_layers - 1))
    ++ [(hidden_neurons, 1)].

Definition has_architecture (hidden_layers : Z) (hidden_neurons : nat)
    (m : NB2Sweep.BreastCancerClassifier F) : Prop :=
  Forall wf_Linear (NB2Sweep.layers m) /\
  map dims (NB2Sweep.layers m) = architecture hidden_layers hidden_neurons.

Definition shaped_nb1 (m : NB1.BreastCancerClassifier F) : Prop :=
  shaped 30 1 (NB1.layer1 m).

Definition shaped_fixed (m : NB2Fixed.BreastCancerClassifier F) : Prop :=
  shaped 30 20 (NB2Fixed.layer1 m) /\
  shaped 20 10 (NB2Fixed.layer2 m) /\
  shaped 10 1 (NB2Fixed.layer3 m).

End Shapes.
End Shapes.
Import Shapes.

(** ** A concrete run: squared-error loss and plain gradient descent on the
       linear classifier of notebook 1 *)

Module Demo.
Import Float32.

Definition f32_sub : f32 -> f32 -> f32 := SFsub 24 128.

Definition same_shape (a b : tensor f32) : bool :=
  if list_eq_dec Nat.eq_dec (shape a) (shape b) then true else false.

(** A loss rule: sum of squared errors; as the library's losses do, it
    raises [ValueError] when prediction and target differ in shape. *)
Definition squared_error (y_hat y : tensor f32) : result f32 :=
  if same_shape y_hat y
  then Ok (fold_left (fun acc p => fadd acc (fmul (f32_sub (fst p) (snd p))
                                                  (f32_sub (fst p) (snd p))))
                     (combine (data y_hat) (data y)) fzero)
  else Raise ValueError.

Definition vec_add (a b : list f32) : list f32 :=
  map (fun p => fadd (fst p) (snd p)) (combine a b).

Definition vec_scale (c : f32) (a : list f32) : list f32 := map (fmul c) a.

(** Gradient of [squared_error] with respect to the layer's weight row and
    bias: [sum_i 2 (y_hat_i - y_i) x_i] and [sum_i 2 (y_hat_i - y_i)]. *)
Definition squared_error_grad (m : NB1.BreastCancerClassifier f32)
    (x y : tensor f32) : Linear f32 :=
  let l := NB1.layer1 m in
  let residuals :=
    match NB1.forward m x with
    | Ok out => map (fun p => fmul (f32_of_Z 2) (f32_sub (fst p) (snd p)))
                    (combine (data out) (data y))
    | Raise _ => []
    end in
  {| in_features := in_features l;
     out_features := out_features l;
     weight := [fold_left (fun acc p => vec_add acc (vec_scale (fst p) (snd p)))
                          (combine residuals (rows_of x))
                          (repeat fzero (in_features l))];
     bias := [fold_left fadd residuals fzero] |}.

Definition grad_sum (a b : Linear f32) : Linear f32 :=
  {| in_features := in_features a;
     out_features := out_features a;
     weight := map (fun p => vec_add (fst p) (snd p)) (combine (weight a) (weight b));
     bias := vec_add (bias a) (bias b) |}.

(** Gradient descent with learning rate 1/2: [p <- p - g / 2]. *)
Definition half : f32 := S754_finite false 8388608 (-24).

Definition descend (p g : list f32) : list f32 :=
  map (fun pg => f32_sub (fst pg) (fmul half (snd pg))) (combine p g).

Definition sgd_update (o : unit) (m : NB1.BreastCancerClassifier f32)
    (g : option (Linear f32)) : unit * NB1.BreastCancerClassifier f32 :=
  match g with
  | None => (o, m)
  | Some g =>
      let l := NB1.layer1 m in
      (o, {| NB1.layer1 :=
               {| in_features := in_features l;
                  out_features := out_features l;
                  weight := map (fun pg => descend (fst pg) (snd pg))
                                (combine (weight l) (weight g));
                  bias := descend (bias l) (bias g) |};
             NB1.training := NB1.training m |})
  end.

Definition world0 : Type :=
  world f32 spec_float (NB1.BreastCancerClassifier f32) (Linear f32) unit.

Definition train_step : batch f32 -> M world0 (loss_t f32 (Linear f32)) :=
  NB1.train_step squared_error squared_error_grad grad_sum sgd_update.

Definition validation_step (b : batch f32)
  : M world0 (loss_t f32 (Linear f32)) :=
  NB2Lightning.validation_step squared_error squared_error_grad b 0.

(** A model with all parameters zero, in a fresh session. *)
Definition model0 : NB1.BreastCancerClassifier f32 :=
  fst (NB1.BreastCancerClassifier_init (@nil f32)).

Definition w0 : world0 :=
  {| model := model0; optimizer := tt; grad := None; grad_enabled := true;
     logged := []; train_losses := []; validation_losses := [] |}.

(** Two samples of thirty features, all ones, labelled 1 and 0. *)
Definition batch0 : batch f32 :=
  (tensor2 30 [repeat (f32_of_Z 1) 30; repeat (f32_of_Z 1) 30],
   tensor1 [f32_of_Z 1; f32_of_Z 0]).

(** A batch of the wrong width: two samples of two features. *)
Definition narrow_batch : batch f32 :=
  (tensor2 2 [[f32_of_Z 1; f32_of_Z 2]; [f32_of_Z 3; f32_of_Z 4]],
   tensor1 [f32_of_Z 1; f32_of_Z 0]).

(** The world and the losses the training phase leaves from [w0]. *)
Definition w1 : world0 :=
  fst ((model_train ;; mapM train_step [batch0]) w0).

Definition losses1 : list (loss_t f32 (Linear f32)) :=
  match snd ((model_train ;; mapM train_step [batch0]) w0) with
  | Ok ls => ls
  | Raise _ => []
  end.

Definition frame0 : NB1.DataFrame f32 :=
  {| NB1.ncolumns := 2;
     NB1.values := [[f32_of_Z 1; f32_of_Z 2]; [f32_of_Z 3; f32_of_Z 4]] |}.

Definition dataset0 : NB1.CancerDataset f32 :=
  NB1.CancerDataset_init frame0 [f32_of_Z 0; f32_of_Z 1].

End Demo.

(** ** The loop over epochs and what a block may leave alone *)

Module NB1Epochs.
Section Epochs.
Context {F P : Type} `{Dtype F} `{PyNumber F P}.
Context {Mdl G O : Type} `{NNModule F Mdl}.

(** [range(1, n + 1)] for a Python integer [n]. *)
Definition range_from_1 (n : Z) : list nat := seq 1 (Z.to_nat n).

(** [for epoch in range(1, n_epochs + 1): ...] of section 1.3.3 around the
    epoch body; [epoch] is only printed. *)
Definition training_loop
    (train_block validation_block : batch F -> M (world F P Mdl G O) (loss_t F G))
    (n_epochs : Z)
    (dataloader_train dataloader_validation : list (batch F))
  : M (world F P Mdl G O) unit :=
  for_each (range_from_1 n_epochs) tt
    (fun _ epoch =>
       NB1.run_epoch train_block validation_block
                     dataloader_train dataloader_validation ;;
       ret tt).

(** The two loss histories are the same in both worlds. *)
Definition same_histories (w w' : world F P Mdl G O) : Prop :=
  train_losses w' = train_losses w /\
  validation_losses w' = validation_losses w.

(** A block that appends nothing to the histories. *)
Definition keeps_histories
    (block : batch F -> M (world F P Mdl G O) (loss_t F G)) : Prop :=
  forall b w, same_histories w (fst (block b w)).

(** A block that leaves torch's grad mode as it found it. *)
Definition keeps_grad_mode
    (block : batch F -> M (world F P Mdl G O) (loss_t F G)) : Prop :=
  forall b w, grad_enabled (fst (block b w)) = grad_enabled w.

(** A loss rule that, like [nn.BCEWithLogitsLoss], raises [ValueError] when
    prediction and target differ in shape. *)
Definition checks_shape (loss : tensor F -> tensor F -> result F) : Prop :=
  forall y_hat y, shape y_hat <> shape y -> loss y_hat y = Raise ValueError.

End Epochs.
End NB1Epochs.

(** ** More concrete inputs *)

Module DemoInputs.
Import Float32 Demo.

(** The fresh session with gradient tracking switched off. *)
Definition w_off : world0 := with_grad_enabled false w0.

(** One sample of thirty features, labelled 1. *)
Definition single_batch : batch f32 :=
  (tensor2 30 [repeat (f32_of_Z 1) 30], tensor1 [f32_of_Z 1]).

(** A table of two rows and thirty columns. *)
Definition frame30 : NB1.DataFrame f32 :=
  {| NB1.ncolumns := 30;
     NB1.values := [repeat (f32_of_Z 1) 30; repeat (f32_of_Z 2) 30] |}.

End DemoInputs.

(** * Properties *)

Unset Implicit Arguments.

(** ** Tensor indexing *)

Section TensorFacts.
Context {F : Type} `{Dtype F}.

Lemma wrap_index_in_range (size : nat) (idx : Z) :
  (0 <= idx < Z.of_nat size)%Z -> wrap_index size idx = Ok (Z.to_nat idx).
Proof.
  intros Hr. unfold wrap_index.
  destruct (Z.leb_spec 0 idx); [|lia].
  destruct (Z.ltb_spec idx (Z.of_nat size)); [|lia].
  reflexivity.
Qed.

Lemma wrap_index_negative (size : nat) (idx : Z) :
  (- Z.of_nat size <= idx < 0)%Z ->
  wrap_index size idx = Ok (Z.to_nat (idx + Z.of_nat size)).
Proof.
  intros Hr. unfold wrap_index.
  destruct (Z.leb_spec 0 idx); [lia|]. simpl.
  destruct (Z.leb_spec (- Z.of_nat size) idx); [|lia].
  destruct (Z.ltb_spec idx 0); [|lia].
  reflexivity.
Qed.

Lemma fits_int64_spec (z : Z) :
  fits_int64 z = true <->
  (- 9223372036854775808 <= z < 9223372036854775808)%Z.
Proof.
  unfold fits_int64. rewrite andb_true_iff, Z.leb_le, Z.ltb_lt. tauto.
Qed.

Lemma wrap_index_out_of_range (size : nat) (idx : Z) :
  (idx < - Z.of_nat size \/ Z.of_nat size <= idx)%Z ->
  wrap_index size idx
  = if fits_int64 idx then Raise IndexError else Raise ValueError.
Proof.
  intros Hr. unfold wrap_index.
  destruct (Z.leb_spec 0 idx), (Z.ltb_spec idx (Z.of_nat size));
    simpl; try lia;
    destruct (Z.leb_spec (- Z.of_nat size) idx), (Z.ltb_spec idx 0);
    simpl; try lia; reflexivity.
Qed.

Lemma wrap_index_outside (size : nat) (idx : Z) :
  (idx < - Z.of_nat size \/ Z.of_nat size <= idx)%Z ->
  (- 9223372036854775808 <= idx < 9223372036854775808)%Z ->
  wrap_index size idx = Raise IndexError.
Proof.
  intros Hr Hfit. rewrite (wrap_index_out_of_range size idx Hr).
  now rewrite (proj2 (fits_int64_spec idx) Hfit).
Qed.

Lemma wrap_index_overflow (size : nat) (idx : Z) :
  (idx < - Z.of_nat size \/ Z.of_nat size <= idx)%Z ->
  (idx < - 9223372036854775808 \/ 9223372036854775808 <= idx)%Z ->
  wrap_index size idx = Raise ValueError.
Proof.
  intros Hr Hbig. rewrite (wrap_index_out_of_range size idx Hr).
  destruct (fits_int64 idx) eqn:Hfit; [|reflexivity].
  apply fits_int64_spec in Hfit. lia.
Qed.

(** Row [i] of a rectangular table, read back from its row-major layout. *)
Lemma row_of_concat (c : nat) (rows : list (list F)) :
  Forall (fun r => length r = c) rows ->
  forall i, i < length rows ->
  firstn c (skipn (i * c) (concat rows)) = nth i rows [].
Proof.
  induction 1 as [|r rows Hr Hrows IH]; intros i Hi; simpl in Hi; [lia|].
  destruct i as [|i]; simpl.
  - rewrite firstn_app, Hr, Nat.sub_diag, firstn_all2 by lia.
    simpl. apply app_nil_r.
  - rewrite skipn_app, Hr.
    rewrite (skipn_all2 r) by lia. simpl.
    replace (c + i * c - c) with (i * c) by lia.
    apply IH. lia.
Qed.

Lemma entry_of_list (xs : list F) (d : F) (i : nat) :
  i < length xs -> firstn 1 (skipn (i * 1) xs) = [nth i xs d].
Proof.
  rewrite Nat.mul_1_r. revert i.
  induction xs as [|x xs IH]; intros i Hi; simpl in Hi; [lia|].
  destruct i as [|i]; simpl; [reflexivity|].
  apply IH. lia.
Qed.

End TensorFacts.

(** ** C4: indexed access to the dataset *)

Section DatasetFacts.
Context {F : Type} `{Dtype F}.

Lemma getitem_tensor2_at (c : nat) (rows : list (list F)) (idx : Z) (i : nat) :
  Forall (fun r => length r = c) rows ->
  wrap_index (length rows) idx = Ok i -> i < length rows ->
  getitem (tensor2 c rows) idx = Ok {| shape := [c]; data := nth i rows [] |}.
Proof.
  intros Hwf Hw Hi. unfold getitem, tensor2. cbn [shape data].
  rewrite Hw. cbn [rbind]. do 2 f_equal.
  unfold numel_of. cbn [fold_right]. rewrite Nat.mul_1_r.
  now apply row_of_concat.
Qed.

Lemma getitem_tensor1_at (xs : list F) (d : F) (idx : Z) (i : nat) :
  wrap_index (length xs) idx = Ok i -> i < length xs ->
  getitem (tensor1 xs) idx = Ok (scalar (nth i xs d)).
Proof.
  intros Hw Hi. unfold getitem, tensor1, scalar. cbn [shape data].
  rewrite Hw. cbn [rbind]. do 2 f_equal.
  change (numel_of []) with 1. now apply entry_of_list.
Qed.

Lemma getitem_raises (t : tensor F) (d : nat) (rest : list nat) (idx : Z)
    (e : exn) :
  shape t = d :: rest -> wrap_index d idx = Raise e ->
  getitem t idx = Raise e.
Proof.
  intros Hs Hw. unfold getitem. now rewrite Hs, Hw.
Qed.

(** C4 (as the code has it): for a dataset built from a table of [n] rows
    and [n] labels, [len] is [n]; an index in [0, n) yields the row and
    the label at that position; an index in [-n, 0) yields what index
    [i + n] yields; every other index raises, [IndexError] when it fits a
    signed 64-bit integer and [ValueError] when it does not. *)
Theorem CancerDataset_getitem_spec
    (df : NB1.DataFrame F) (ts : list F) (n : nat) (i : Z) :
  NB1.wf_frame df -> length (NB1.values df) = n -> length ts = n ->
  let ds := NB1.CancerDataset_init df ts in
  NB1.CancerDataset_len ds = Ok n /\
  ((0 <= i < Z.of_nat n)%Z ->
     NB1.CancerDataset_getitem ds i =
       Ok ({| shape := [NB1.ncolumns df];
              data := nth (Z.to_nat i) (NB1.values df) [] |},
           scalar (nth (Z.to_nat i) ts fzero))) /\
  ((- Z.of_nat n <= i < 0)%Z ->
     NB1.CancerDataset_getitem ds i =
       NB1.CancerDataset_getitem ds (i + Z.of_nat n)) /\
  ((i < - Z.of_nat n \/ Z.of_nat n <= i)%Z ->
   (- 9223372036854775808 <= i < 9223372036854775808)%Z ->
     NB1.CancerDataset_getitem ds i = Raise IndexError) /\
  ((i < - Z.of_nat n \/ Z.of_nat n <= i)%Z ->
   (i < - 9223372036854775808 \/ 9223372036854775808 <= i)%Z ->
     NB1.CancerDataset_getitem ds i = Raise ValueError).
Proof.
  intros Hwf Hrows Hts ds. subst n.
  assert (Hat : forall idx k, wrap_index (length (NB1.values df)) idx = Ok k ->
     k < length (NB1.values df) ->
     NB1.CancerDataset_getitem ds idx =
       Ok ({| shape := [NB1.ncolumns df]; data := nth k (NB1.values df) [] |},
           scalar (nth k ts fzero))).
  { intros idx k Hw Hk. unfold NB1.CancerDataset_getitem, ds.
    cbn [NB1.CancerDataset_init NB1.features NB1.targets].
    rewrite (getitem_tensor2_at _ _ idx k Hwf Hw Hk). cbn [rbind].
    rewrite (getitem_tensor1_at ts fzero idx k) by (rewrite ?Hts; assumption).
    reflexivity. }
  repeat split.
  - intros Hin. apply Hat; [now apply wrap_index_in_range | lia].
  - intros Hneg.
    rewrite (Hat i (Z.to_nat (i + Z.of_nat (length (NB1.values df)))));
      [| now apply wrap_index_negative | lia].
    symmetry. apply Hat; [apply wrap_index_in_range; lia | lia].
  - intros Hout Hfit. unfold NB1.CancerDataset_getitem, ds.
    cbn [NB1.CancerDataset_init NB1.features].
    rewrite (getitem_raises (tensor2 _ _) _ _ i IndexError eq_refl
               (wrap_index_outside _ i Hout Hfit)).
    reflexivity.
  - intros Hout Hbig. unfold NB1.CancerDataset_getitem, ds.
    cbn [NB1.CancerDataset_init NB1.features].
    rewrite (getitem_raises (tensor2 _ _) _ _ i ValueError eq_refl
               (wrap_index_overflow _ i Hout Hbig)).
    reflexivity.
Qed.

End DatasetFacts.

(** ** C8: the train / validation split *)

Section SplitFacts.

Lemma round_robin_total (l : list nat) (a b : nat) :
  let ab := fold_left (fun (ab : nat * nat) (i : nat) =>
               if Nat.even i then (S (fst ab), snd ab) else (fst ab, S (snd ab)))
            l (a, b) in
  fst ab + snd ab = a + b + length l.
Proof.
  revert a b. induction l as [|i l IH]; intros a b; simpl; [lia|].
  destruct (Nat.even i); simpl; rewrite IH; lia.
Qed.

Lemma random_split_lengths_total (n : nat) :
  fst (TorchData.random_split_lengths n)
  + snd (TorchData.random_split_lengths n) = n.
Proof.
  unfold TorchData.random_split_lengths.
  rewrite round_robin_total, length_seq.
  assert (n * 4 / 5 + n / 5 <= n).
  { pose proof (Nat.div_mod_eq (n * 4) 5).
    pose proof (Nat.div_mod_eq n 5).
    pose proof (Nat.mod_upper_bound (n * 4) 5).
    pose proof (Nat.mod_upper_bound n 5). lia. }
  lia.
Qed.

Lemma random_split_covers (n : nat) (randperm : list nat) :
  length randperm = n ->
  fst (TorchData.random_split n randperm)
  ++ snd (TorchData.random_split n randperm) = randperm.
Proof.
  intros Hlen. unfold TorchData.random_split.
  pose proof (random_split_lengths_total n) as Htot.
  destruct (TorchData.random_split_lengths n) as [a b]. simpl in *.
  rewrite (firstn_all2 (n:=b)) by (rewrite length_skipn; lia).
  apply firstn_skipn.
Qed.

Lemma NoDup_app_disjoint (l1 l2 : list nat) (x : nat) :
  NoDup (l1 ++ l2) -> In x l1 -> ~ In x l2.
Proof.
  induction l1 as [|y l1 IH]; simpl; intros Hnd Hin Hin2; [contradiction|].
  inversion Hnd as [|? ? Hy Hnd']; subst.
  destruct Hin as [->|Hin].
  - apply Hy, in_or_app. now right.
  - now apply IH.
Qed.

(** C8: cutting a permutation of [range(n)] yields two index lists that
    together are a permutation of [range(n)]: no index occurs twice, none
    is in both lists, and an index is below [n] exactly when it is in one
    of them. *)
Theorem random_split_partition (n : nat) (randperm : list nat) :
  Permutation randperm (seq 0 n) ->
  let train := fst (TorchData.random_split n randperm) in
  let validation := snd (TorchData.random_split n randperm) in
  Permutation (train ++ validation) (seq 0 n) /\
  NoDup (train ++ validation) /\
  (forall i, In i train -> ~ In i validation) /\
  (forall i, i < n <-> In i train \/ In i validation) /\
  length train + length validation = n.
Proof.
  intros Hperm train validation.
  assert (Hlen : length randperm = n).
  { rewrite (Permutation_length Hperm). apply length_seq. }
  assert (Hcov : train ++ validation = randperm)
    by (apply random_split_covers; assumption).
  assert (Hnd : NoDup (train ++ validation)).
  { rewrite Hcov. apply (Permutation_NoDup (Permutation_sym Hperm)).
    apply seq_NoDup. }
  repeat split.
  - now rewrite Hcov.
  - exact Hnd.
  - intros i Hi Hv.
    exact (NoDup_app_disjoint _ _ i Hnd Hi Hv).
  - intros Hi. apply in_app_or. rewrite Hcov.
    apply (Permutation_in _ (Permutation_sym Hperm)).
    apply in_seq. lia.
  - intros Hi. apply in_or_app in Hi. rewrite Hcov in Hi.
    apply (Permutation_in _ Hperm), in_seq in Hi. lia.
  - rewrite <- length_app, Hcov. exact Hlen.
Qed.

Lemma random_split_partition_witness :
  Permutation [3; 0; 4; 1; 2] (seq 0 5) /\
  TorchData.random_split 5 [3; 0; 4; 1; 2] = ([3; 0; 4; 1], [2]) /\
  Permutation ([3; 0; 4; 1] ++ [2]) (seq 0 5).
Proof.
  assert (Hp : Permutation [3; 0; 4; 1; 2] (seq 0 5)).
  { simpl.
    apply Permutation_sym.
    apply (Permutation_cons_app [3] [4; 1; 2] 0).
    apply (Permutation_cons_app [3; 4] [2] 1).
    apply (Permutation_cons_app [3; 4] [] 2).
    apply (Permutation_cons_app [] [4] 3).
    apply Permutation_refl. }
  split; [exact Hp|]. split; [reflexivity|].
  exact (proj1 (random_split_partition 5 [3; 0; 4; 1; 2] Hp)).
Defined.

End SplitFacts.

(** ** Shapes through [nn.Linear] and the activation *)

Section ShapeFacts.
Context {F : Type} `{Dtype F}.

Lemma chunks_length (w k : nat) (l : list F) : length (chunks w k l) = k.
Proof.
  revert l. induction k as [|k IH]; intros l; simpl; [reflexivity|].
  now rewrite IH.
Qed.

Lemma chunks_widths (w k : nat) (l : list F) :
  length l = k * w -> Forall (fun r => length r = w) (chunks w k l).
Proof.
  revert l. induction k as [|k IH]; intros l Hl; simpl; constructor.
  - rewrite length_firstn. simpl in Hl. lia.
  - apply IH. rewrite length_skipn. simpl in Hl. lia.
Qed.

Lemma affine_row_length (l : Linear F) (x : list F) :
  wf_Linear l -> length (affine_row l x) = out_features l.
Proof.
  intros (Hw & _ & Hb). unfold affine_row.
  rewrite length_map, length_combine. lia.
Qed.

Lemma flat_map_length_const {A B} (f : A -> list B) (o : nat) (xs : list A) :
  (forall a, length (f a) = o) -> length (flat_map f xs) = length xs * o.
Proof.
  intros Hf. induction xs as [|a xs IH]; simpl; [reflexivity|].
  now rewrite length_app, Hf, IH.
Qed.

(** A batch of [n] rows of the layer's input width goes through. *)
Lemma linear_batch (l : Linear F) (x : tensor F) (n : nat) :
  wf_Linear l -> shape x = [n; in_features l] ->
  exists y, linear l x = Ok y /\
            shape y = [n; out_features l] /\
            numel y = n * out_features l.
Proof.
  intros Hwf Hs. unfold linear. rewrite Hs. cbn [rev app].
  rewrite Nat.eqb_refl. eexists. split; [reflexivity|]. split; [reflexivity|].
  unfold numel, numel_of. cbn [data fold_right].
  rewrite (flat_map_length_const _ (out_features l)), chunks_length
    by (intro; now apply affine_row_length).
  lia.
Qed.

(** A batch of any other width raises. *)
Lemma linear_mismatch (l : Linear F) (x : tensor F) (n w : nat) :
  shape x = [n; w] -> w <> in_features l -> linear l x = Raise RuntimeError.
Proof.
  intros Hs Hw. unfold linear. rewrite Hs. cbn [rev app].
  destruct (Nat.eqb_spec w (in_features l)); [contradiction | reflexivity].
Qed.

Lemma relu_shape (x : tensor F) : shape (relu x) = shape x.
Proof. reflexivity. Qed.

Lemma shaped_linear_batch (i o : nat) (l : Linear F) (x : tensor F) (n : nat) :
  shaped i o l -> shape x = [n; i] ->
  exists y, linear l x = Ok y /\ shape y = [n; o] /\ numel y = n * o.
Proof.
  intros (Hwf & Hd) Hs. unfold dims in Hd. injection Hd as Hi Ho. subst i o.
  now apply linear_batch.
Qed.

Lemma shaped_linear_mismatch (i o : nat) (l : Linear F) (x : tensor F)
    (n w : nat) :
  shaped i o l -> shape x = [n; w] -> w <> i ->
  linear l x = Raise RuntimeError.
Proof.
  intros (_ & Hd) Hs Hw. unfold dims in Hd. injection Hd as Hi Ho. subst i.
  now apply (linear_mismatch l x n w).
Qed.

(** The rows of a well-formed batch all have the batch's width. *)
Lemma rows_of_widths (x : tensor F) (n w : nat) :
  wf_tensor x -> shape x = [n; w] ->
  Forall (fun r => length r = w) (rows_of x).
Proof.
  intros Hwf Hs. unfold rows_of, wf_tensor in *. rewrite Hs in *.
  cbn [rev app numel_of fold_right] in *.
  apply chunks_widths. lia.
Qed.

Lemma odd_row_width (x : tensor F) (n w k : nat) :
  wf_tensor x -> shape x = [n; w] ->
  Exists (fun r => length r <> k) (rows_of x) -> w <> k.
Proof.
  intros Hwf Hs Hex Heq. subst k.
  pose proof (rows_of_widths x n w Hwf Hs) as Hall.
  apply Exists_exists in Hex. destruct Hex as (r & Hin & Hr).
  rewrite Forall_forall in Hall. apply Hr, Hall, Hin.
Qed.

(** *** The hidden loop of the configurable classifier *)

Lemma forward_hidden_shaped (hn : nat) (mids : list (Linear F)) :
  Forall (shaped hn hn) mids ->
  forall (x : tensor F) (n : nat), shape x = [n; hn] ->
  exists y, NB2Sweep.forward_hidden mids x = Ok y /\ shape y = [n; hn].
Proof.
  induction 1 as [|l mids Hl Hmids IH]; intros x n Hs; simpl.
  - now exists x.
  - destruct (shaped_linear_batch hn hn l x n Hl Hs) as (y & -> & Hy & _).
    cbn [rbind]. apply IH. now rewrite relu_shape.
Qed.

Lemma last_layer_snoc (ls : list (Linear F)) (l : Linear F) :
  NB2Sweep.last_layer (ls ++ [l]) = Ok l.
Proof. unfold NB2Sweep.last_layer. now rewrite rev_unit. Qed.

Lemma repeat_dims (d : nat * nat) (k : nat) (ls : list (Linear F)) :
  Forall wf_Linear ls -> map dims ls = repeat d k ->
  Forall (shaped (fst d) (snd d)) ls.
Proof.
  revert k. induction ls as [|l ls IH]; intros k Hwf Hm; constructor.
  - destruct k; simpl in Hm; [discriminate|]. injection Hm as Hd _.
    inversion Hwf; subst. split; [assumption | reflexivity].
  - destruct k; simpl in Hm; [discriminate|]. injection Hm as _ Hm.
    inversion Hwf; subst. now apply (IH k).
Qed.

(** A model of the declared architecture is a first layer from width 30,
    as many square layers as the loop added, and a final layer to width 1. *)
Lemma has_architecture_layers (hl : Z) (hn : nat)
    (m : NB2Sweep.BreastCancerClassifier F) :
  has_architecture hl hn m ->
  exists l0 mids lN,
    NB2Sweep.layers m = (l0 :: mids) ++ [lN] /\
    shaped 30 hn l0 /\ Forall (shaped hn hn) mids /\ shaped hn 1 lN /\
    length mids = Z.to_nat (hl - 1).
Proof.
  intros (Hwf & Hm). unfold architecture in Hm.
  destruct (NB2Sweep.layers m) as [|l0 rest]; [discriminate|].
  cbn [map] in Hm. injection Hm as Hi0 Ho0 Hm.
  apply map_eq_app in Hm. destruct Hm as (mids & tl & -> & Hmids & Htl).
  destruct tl as [|lN [|? ?]]; try discriminate.
  cbn [map] in Htl. injection Htl as HiN HoN.
  inversion Hwf as [|? ? Hwf0 Hwfr]; subst.
  apply Forall_app in Hwfr. destruct Hwfr as (Hwfm & HwfN).
  inversion HwfN; subst.
  exists l0, mids, lN.
  split; [reflexivity|].
  split; [split; [assumption | unfold dims; now rewrite Hi0]|].
  split; [apply (repeat_dims (out_features l0, out_features l0) _ mids Hwfm Hmids)|].
  split; [split; [assumption | unfold dims; now rewrite HiN, HoN]|].
  rewrite <- (length_map dims), Hmids. apply repeat_length.
Qed.

Lemma sweep_forward_batch (hl : Z) (hn : nat)
    (m : NB2Sweep.BreastCancerClassifier F) (x : tensor F) (n : nat) :
  has_architecture hl hn m -> shape x = [n; 30] ->
  exists y, NB2Sweep.forward m x = Ok y /\ shape y = [n; 1] /\ numel y = n.
Proof.
  intros Ha Hs.
  destruct (has_architecture_layers hl hn m Ha)
    as (l0 & mids & lN & Hl & H0 & Hmids & HN & _).
  unfold NB2Sweep.forward. rewrite Hl, removelast_last, last_layer_snoc.
  cbn [NB2Sweep.forward_hidden].
  destruct (shaped_linear_batch 30 hn l0 x n H0 Hs) as (y0 & -> & Hy0 & _).
  cbn [rbind].
  destruct (forward_hidden_shaped hn mids Hmids (relu y0) n)
    as (h & -> & Hh); [now rewrite relu_shape|].
  cbn [rbind].
  destruct (shaped_linear_batch hn 1 lN h n HN Hh) as (y & -> & Hy & Hny).
  cbn [rbind]. exists y. repeat split; [assumption | lia].
Qed.

Lemma sweep_forward_mismatch (hl : Z) (hn : nat)
    (m : NB2Sweep.BreastCancerClassifier F) (x : tensor F) (n w : nat) :
  has_architecture hl hn m -> shape x = [n; w] -> w <> 30 ->
  NB2Sweep.forward m x = Raise RuntimeError.
Proof.
  intros Ha Hs Hw.
  destruct (has_architecture_layers hl hn m Ha)
    as (l0 & mids & lN & Hl & H0 & _).
  unfold NB2Sweep.forward. rewrite Hl, removelast_last.
  cbn [NB2Sweep.forward_hidden].
  now rewrite (shaped_linear_mismatch 30 hn l0 x n w H0 Hs Hw).
Qed.

Lemma fixed_forward_batch (m : NB2Fixed.BreastCancerClassifier F)
    (x : tensor F) (n : nat) :
  shaped_fixed m -> shape x = [n; 30] ->
  exists y, NB2Fixed.forward m x = Ok y /\ shape y = [n; 1] /\ numel y = n.
Proof.
  intros (H1 & H2 & H3) Hs. unfold NB2Fixed.forward.
  destruct (shaped_linear_batch _ _ _ x n H1 Hs) as (y1 & -> & Hy1 & _).
  cbn [rbind].
  destruct (shaped_linear_batch _ _ _ (relu y1) n H2) as (y2 & -> & Hy2 & _);
    [now rewrite relu_shape|].
  cbn [rbind].
  destruct (shaped_linear_batch _ _ _ (relu y2) n H3) as (y3 & -> & Hy3 & Hn3);
    [now rewrite relu_shape|].
  cbn [rbind]. exists y3. repeat split; [assumption | lia].
Qed.

Lemma nb1_forward_batch (m : NB1.BreastCancerClassifier F)
    (x : tensor F) (n : nat) :
  shaped_nb1 m -> shape x = [n; 30] ->
  exists y, NB1.forward m x = Ok y /\ shape y = [n; 1] /\ numel y = n.
Proof.
  intros H1 Hs. unfold NB1.forward.
  destruct (shaped_linear_batch _ _ _ x n H1 Hs) as (y1 & -> & Hy1 & Hn1).
  cbn [rbind]. exists y1. repeat split; [assumption | lia].
Qed.

Lemma squeeze_column (y : tensor F) (n : nat) :
  shape y = [n; 1] ->
  shape (squeeze y) = (if Nat.eqb n 1 then [] else [n]) /\
  numel (squeeze y) = numel y.
Proof.
  intros Hs. unfold squeeze, numel. cbn [shape data]. rewrite Hs.
  cbn [filter Nat.eqb negb]. now destruct (Nat.eqb n 1).
Qed.

End ShapeFacts.

(** ** Freshly constructed models *)

Section InitFacts.
Context {F R : Type} `{Dtype F} `{Initializer F R}.

Lemma draw_list_length (fan_in k : nat) (r : R) :
  length (fst (draw_list fan_in k r)) = k.
Proof.
  revert r. induction k as [|k IH]; intros r; simpl; [reflexivity|].
  destruct (draw fan_in r) as [x r1].
  specialize (IH r1). destruct (draw_list fan_in k r1) as [xs r2].
  simpl in *. now rewrite IH.
Qed.

Lemma draw_rows_shape (fan_in k : nat) (r : R) :
  length (fst (draw_rows fan_in k r)) = k /\
  Forall (fun row => length row = fan_in) (fst (draw_rows fan_in k r)).
Proof.
  revert r. induction k as [|k IH]; intros r; simpl; [now split|].
  pose proof (draw_list_length fan_in fan_in r) as Hrow.
  destruct (draw_list fan_in fan_in r) as [row r1].
  specialize (IH r1). destruct (draw_rows fan_in k r1) as [rows r2].
  simpl in *. destruct IH as (IHl & IHf). split; [now rewrite IHl|].
  now constructor.
Qed.

Lemma nn_Linear_shaped (i o : nat) (r : R) :
  shaped i o (fst (nn_Linear i o r)).
Proof.
  unfold nn_Linear.
  pose proof (draw_rows_shape i o r) as (Hl & Hf).
  destruct (draw_rows i o r) as [w r1].
  pose proof (draw_list_length i o r1) as Hb.
  destruct (draw_list i o r1) as [b r2]. simpl in *.
  split; [|reflexivity]. repeat split; assumption.
Qed.

(** The loop of [__init__] appends one square layer per iteration. *)
Lemma init_loop (hn : nat) (js : list nat) :
  forall (acc : list (Linear F)) (r : R),
  exists mids,
    fst (fold_left
           (fun (a : list (Linear F) * R) (_ : nat) =>
              let (l, r') := nn_Linear hn hn (snd a) in (fst a ++ [l], r'))
           js (acc, r)) = acc ++ mids /\
    length mids = length js /\ Forall (shaped hn hn) mids.
Proof.
  induction js as [|j js IH]; intros acc r; simpl.
  - exists []. now rewrite app_nil_r.
  - pose proof (nn_Linear_shaped hn hn r) as Hl.
    destruct (nn_Linear hn hn r) as [l r']. simpl in Hl.
    destruct (IH (acc ++ [l]) r') as (mids & -> & Hlen & Hall).
    exists (l :: mids). rewrite <- app_assoc. simpl.
    repeat split; [now rewrite Hlen | now constructor].
Qed.

Lemma init_layers (hl : Z) (hn : nat) (r : R) :
  exists l0 mids lN,
    NB2Sweep.layers (fst (NB2Sweep.BreastCancerClassifier_init hl hn r))
      = (l0 :: mids) ++ [lN] /\
    shaped 30 hn l0 /\ Forall (shaped hn hn) mids /\ shaped hn 1 lN /\
    length mids = Z.to_nat (hl - 1).
Proof.
  unfold NB2Sweep.BreastCancerClassifier_init.
  pose proof (nn_Linear_shaped 30 hn r) as Hfirst.
  destruct (nn_Linear 30 hn r) as [l0 r0]. simpl in Hfirst.
  destruct (init_loop hn (range (hl - 1)) ([] ++ [l0]) r0)
    as (mids & Hfst & Hlen & Hall).
  destruct (fold_left _ (range (hl - 1)) ([] ++ [l0], r0)) as [ls r1].
  simpl in Hfst. subst ls.
  pose proof (nn_Linear_shaped hn 1 r1) as HN.
  destruct (nn_Linear hn 1 r1) as [lN r2]. simpl in HN.
  exists l0, mids, lN. simpl.
  repeat split; try assumption; try apply Hfirst; try apply HN.
  rewrite Hlen. unfold range. apply length_seq.
Qed.

Lemma shaped_all_dims (hn : nat) (mids : list (Linear F)) :
  Forall (shaped hn hn) mids ->
  Forall wf_Linear mids /\ map dims mids = repeat (hn, hn) (length mids).
Proof.
  induction 1 as [|l mids (Hwf & Hd) _ (IHw & IHd)]; simpl; [now split|].
  split; [now constructor | now rewrite Hd, IHd].
Qed.

Lemma init_has_architecture (hl : Z) (hn : nat) (r : R) :
  has_architecture hl hn (fst (NB2Sweep.BreastCancerClassifier_init hl hn r)).
Proof.
  destruct (init_layers hl hn r)
    as (l0 & mids & lN & Hl & (Hw0 & Hd0) & Hmids & (HwN & HdN) & Hlen).
  destruct (shaped_all_dims hn mids Hmids) as (Hwm & Hdm).
  unfold has_architecture, architecture. rewrite Hl. split.
  - simpl. constructor; [assumption|]. apply Forall_app. split; [assumption|].
    now constructor.
  - simpl. rewrite map_app, Hd0, Hdm, Hlen. simpl. now rewrite HdN.
Qed.

Lemma nb1_init_shaped (r : R) :
  shaped_nb1 (fst (NB1.BreastCancerClassifier_init r)).
Proof.
  unfold NB1.BreastCancerClassifier_init, shaped_nb1.
  pose proof (nn_Linear_shaped 30 1 r) as H1.
  destruct (nn_Linear 30 1 r) as [l1 r1]. exact H1.
Qed.

Lemma fixed_init_shaped (r : R) :
  shaped_fixed (fst (NB2Fixed.BreastCancerClassifier_init r)).
Proof.
  unfold NB2Fixed.BreastCancerClassifier_init, shaped_fixed.
  pose proof (nn_Linear_shaped 30 20 r) as H1.
  destruct (nn_Linear 30 20 r) as [l1 r1].
  pose proof (nn_Linear_shaped 20 10 r1) as H2.
  destruct (nn_Linear 20 10 r1) as [l2 r2].
  pose proof (nn_Linear_shaped 10 1 r2) as H3.
  destruct (nn_Linear 10 1 r2) as [l3 r3].
  simpl in *. exact (conj H1 (conj H2 H3)).
Qed.

End InitFacts.

(** ** The classifiers: C5, C6, C7, C9, C10 *)

Section StackFacts.
Context {F : Type} `{Dtype F}.

Lemma rbind_assoc {A B C} (r : result A) (f : A -> result B)
    (g : B -> result C) :
  rbind (rbind r f) g = rbind r (fun a => rbind (f a) g).
Proof. now destruct r. Qed.

Lemma last_layer_cons (l l' : Linear F) (ls : list (Linear F)) :
  NB2Sweep.last_layer (l :: l' :: ls) = NB2Sweep.last_layer (l' :: ls).
Proof.
  unfold NB2Sweep.last_layer. cbn [rev].
  destruct (rev ls) as [|a t]; reflexivity.
Qed.

(** The slice-and-last loop of [forward] runs the interleaved stack. *)
Lemma forward_runs_stack (l : Linear F) (ls : list (Linear F)) (x : tensor F) :
  NB2Sweep.forward {| NB2Sweep.layers := l :: ls; NB2Sweep.training := true |} x
  = Arch.run_stages (Arch.stack (l :: ls)) x.
Proof.
  unfold NB2Sweep.forward. cbn [NB2Sweep.layers].
  revert l x. induction ls as [|l' ls IH]; intros l x.
  - cbn. now destruct (linear l x).
  - rewrite last_layer_cons.
    change (removelast (l :: l' :: ls)) with (l :: removelast (l' :: ls)).
    change (Arch.stack (l :: l' :: ls))
      with (Arch.Affine l :: Arch.Activation :: Arch.stack (l' :: ls)).
    cbn [NB2Sweep.forward_hidden Arch.run_stages Arch.run_stage].
    rewrite rbind_assoc. destruct (linear l x) as [y|e]; cbn [rbind]; [|reflexivity].
    apply IH.
Qed.

Lemma stack_snoc (hidden : list (Linear F)) (lastl : Linear F) :
  Arch.stack (hidden ++ [lastl])
  = flat_map (fun l => [Arch.Affine l; Arch.Activation]) hidden
    ++ [Arch.Affine lastl].
Proof.
  induction hidden as [|l hidden IH]; [reflexivity|].
  cbn [app flat_map]. rewrite <- IH.
  destruct hidden; reflexivity.
Qed.

End StackFacts.

Section ClassifierFacts.
Context {F : Type} `{Dtype F}.

(** C5: on a batch of [n] feature vectors of width 30 every classifier
    returns a tensor of exactly [n] logits, of shape [(n, 1)]; the
    Lightning module's [forward] squeezes it and still returns [n]
    logits. *)
Theorem predict_returns_n_logits (x : tensor F) (n : nat) :
  shape x = [n; 30] ->
  (forall m, shaped_nb1 m ->
     exists y, NB1.forward m x = Ok y /\ shape y = [n; 1] /\ numel y = n) /\
  (forall m, shaped_fixed m ->
     exists y, NB2Fixed.forward m x = Ok y /\ shape y = [n; 1] /\ numel y = n) /\
  (forall hl hn m, has_architecture hl hn m ->
     exists y, NB2Sweep.forward m x = Ok y /\ shape y = [n; 1] /\ numel y = n) /\
  (forall (P G O : Type) (w : world F P (NB2Fixed.BreastCancerClassifier F) G O),
     shaped_fixed (model w) ->
     exists y, NB2Lightning.forward x w = (w, Ok y) /\ numel y = n /\
               shape y = if Nat.eqb n 1 then [] else [n]) /\
  (forall (P G O : Type) hl hn
          (w : world F P (NB2Sweep.BreastCancerClassifier F) G O),
     has_architecture hl hn (model w) ->
     exists y, NB2Lightning.forward x w = (w, Ok y) /\ numel y = n /\
               shape y = if Nat.eqb n 1 then [] else [n]).
Proof.
  intros Hs. repeat apply conj.
  - intros m Hm. now apply nb1_forward_batch.
  - intros m Hm. now apply fixed_forward_batch.
  - intros hl hn m Hm. now apply (sweep_forward_batch hl hn).
  - intros P G O w Hm.
    destruct (fixed_forward_batch (model w) x n Hm Hs) as (y & Hy & Hsy & Hny).
    destruct (squeeze_column y n Hsy) as (Hsq & Hnq).
    exists (squeeze y). unfold NB2Lightning.forward, call_model, bind, read, lift, ret.
    cbn [call NB2Fixed.BreastCancerClassifier_module]. rewrite Hy.
    repeat split; [congruence | assumption].
  - intros P G O hl hn w Hm.
    destruct (sweep_forward_batch hl hn (model w) x n Hm Hs) as (y & Hy & Hsy & Hny).
    destruct (squeeze_column y n Hsy) as (Hsq & Hnq).
    exists (squeeze y). unfold NB2Lightning.forward, call_model, bind, read, lift, ret.
    cbn [call NB2Sweep.BreastCancerClassifier_module]. rewrite Hy.
    repeat split; [congruence | assumption].
Qed.

(** C6: a batch holding a feature vector whose width is not 30 makes every
    classifier raise the width-mismatch error. *)
Theorem predict_rejects_wrong_width (x : tensor F) (n w : nat) :
  wf_tensor x -> shape x = [n; w] ->
  Exists (fun r => length r <> 30) (rows_of x) ->
  (forall m, shaped_nb1 m -> NB1.forward m x = Raise ShapeMismatch) /\
  (forall m, shaped_fixed m -> NB2Fixed.forward m x = Raise ShapeMismatch) /\
  (forall hl hn m, has_architecture hl hn m ->
     NB2Sweep.forward m x = Raise ShapeMismatch).
Proof.
  intros Hwf Hs Hex.
  pose proof (odd_row_width x n w 30 Hwf Hs Hex) as Hw.
  repeat apply conj.
  - intros m Hm. unfold NB1.forward.
    now rewrite (shaped_linear_mismatch 30 1 _ x n w Hm Hs Hw).
  - intros m (Hm & _). unfold NB2Fixed.forward.
    now rewrite (shaped_linear_mismatch 30 20 _ x n w Hm Hs Hw).
  - intros hl hn m Hm. now apply (sweep_forward_mismatch hl hn m x n w).
Qed.


(** C9: calling a classifier gives the same result, values and shape, in
    training mode and in evaluation mode. *)
Theorem forward_ignores_mode :
  (forall (m : NB1.BreastCancerClassifier F) x,
     call (set_training true m) x = call (set_training false m) x) /\
  (forall (m : NB2Fixed.BreastCancerClassifier F) x,
     call (set_training true m) x = call (set_training false m) x) /\
  (forall (m : NB2Sweep.BreastCancerClassifier F) x,
     call (set_training true m) x = call (set_training false m) x) /\
  (forall (P G O : Type)
          (w : world F P (NB2Sweep.BreastCancerClassifier F) G O) x,
     snd ((model_train ;; NB2Lightning.forward x) w)
     = snd ((model_eval ;; NB2Lightning.forward x) w)).
Proof.
  repeat apply conj; try reflexivity.
  intros P G O w x.
  unfold bind, model_train, model_eval, modify, NB2Lightning.forward,
    call_model, bind, read, lift, ret.
  cbn [model with_model call set_training NB2Sweep.BreastCancerClassifier_module].
  change (NB2Sweep.forward
            {| NB2Sweep.layers := NB2Sweep.layers (model w);
               NB2Sweep.training := false |} x)
    with (NB2Sweep.forward
            {| NB2Sweep.layers := NB2Sweep.layers (model w);
               NB2Sweep.training := true |} x).
  now destruct (NB2Sweep.forward _ x).
Qed.


End ClassifierFacts.

Lemma predict_returns_n_logits_witness :
  shape (fst Demo.batch0) = [2; 30] /\
  exists y, NB1.forward Demo.model0 (fst Demo.batch0) = Ok y /\
            shape y = [2; 1] /\ numel y = 2.
Proof.
  split; [reflexivity|].
  apply (proj1 (predict_returns_n_logits (fst Demo.batch0) 2 eq_refl)).
  apply nb1_init_shaped.
Defined.

Lemma predict_rejects_wrong_width_witness :
  wf_tensor (NB1.features Demo.dataset0) /\
  shape (NB1.features Demo.dataset0) = [2; 2] /\
  Exists (fun r => length r <> 30) (rows_of (NB1.features Demo.dataset0)) /\
  NB1.forward Demo.model0 (NB1.features Demo.dataset0) = Raise ShapeMismatch.
Proof.
  assert (Hex : Exists (fun r : list Float32.f32 => length r <> 30)
                       (rows_of (NB1.features Demo.dataset0))).
  { apply Exists_cons_hd. simpl. discriminate. }
  split; [reflexivity|]. split; [reflexivity|]. split; [exact Hex|].
  apply (proj1 (predict_rejects_wrong_width
                  (NB1.features Demo.dataset0) 2 2 eq_refl eq_refl Hex)).
  apply nb1_init_shaped.
Defined.

(** ** Steps and the epoch loop: C1, C2, C3 *)

Section EpochFacts.
Context {F P : Type} `{Dtype F} `{PyNumber F P}.
Context {Mdl G O : Type} `{NNModule F Mdl}.

Lemma frame_refl (w : world F P Mdl G O) : frame w w.
Proof. now repeat split. Qed.

Lemma frame_trans (w1 w2 w3 : world F P Mdl G O) :
  frame w1 w2 -> frame w2 w3 -> frame w1 w3.
Proof.
  unfold frame. intros (? & ? & ? & ? & ?) (? & ? & ? & ? & ?).
  repeat split; congruence.
Qed.

(** A loop whose body keeps the frame keeps the frame. *)
Lemma for_each_frame {A B} (body : B -> A -> M (world F P Mdl G O) B) :
  (forall acc a w, frame w (fst (body acc a w))) ->
  forall xs acc w, frame w (fst (for_each xs acc body w)).
Proof.
  intros Hbody. induction xs as [|a xs IH]; intros acc w; simpl.
  - apply frame_refl.
  - unfold bind. specialize (Hbody acc a w).
    destruct (body acc a w) as [w1 [acc'|e]]; simpl in *; [|assumption].
    apply (frame_trans _ _ _ Hbody), IH.
Qed.

Lemma no_grad_frame {A} (body : M (world F P Mdl G O) A) :
  (forall w, frame w (fst (body w))) ->
  forall w, frame w (fst (no_grad body w)) /\
            grad_enabled (fst (no_grad body w)) = grad_enabled w.
Proof.
  intros Hbody w. unfold no_grad.
  specialize (Hbody (with_grad_enabled false w)).
  destruct (body (with_grad_enabled false w)) as [w1 r]. simpl in *.
  split; [exact Hbody | reflexivity].
Qed.

Section Steps.
Variable loss_fn : tensor F -> tensor F -> result F.
Variable autograd : Mdl -> tensor F -> tensor F -> G.

Lemma validation_step_keeps_frame (b : batch F) (idx : nat)
    (w : world F P Mdl G O) :
  frame w (fst (NB2Lightning.validation_step loss_fn autograd b idx w)) /\
  grad_enabled (fst (NB2Lightning.validation_step loss_fn autograd b idx w))
    = grad_enabled w.
Proof.
  destruct b as [x y].
  unfold NB2Lightning.validation_step, NB2Lightning.forward, call_model,
    apply_loss, log, bind, read, lift, ret, modify.
  destruct (call (model w) x) as [y_hat|e]; simpl;
    [|split; [apply frame_refl | reflexivity]].
  destruct (loss_fn (squeeze y_hat) y) as [v|e]; simpl;
    (split; [unfold frame; simpl; auto 10 | reflexivity]).
Qed.

Lemma validation_step_untracked (b : batch F) (idx : nat)
    (w : world F P Mdl G O) :
  grad_enabled w = false ->
  match snd (NB2Lightning.validation_step loss_fn autograd b idx w) with
  | Ok l => grad_fn l = None
  | Raise _ => True
  end.
Proof.
  intros Hoff. destruct b as [x y].
  unfold NB2Lightning.validation_step, NB2Lightning.forward, call_model,
    apply_loss, log, bind, read, lift, ret, modify.
  destruct (call (model w) x) as [y_hat|e]; simpl; [|exact I].
  destruct (loss_fn (squeeze y_hat) y) as [v|e]; simpl; [|exact I].
  now rewrite Hoff.
Qed.

Lemma validation_step_graph (b : batch F) (idx : nat)
    (w : world F P Mdl G O) :
  match snd (NB2Lightning.validation_step loss_fn autograd b idx w) with
  | Ok l =>
      grad_fn l = if grad_enabled w
                  then Some (autograd (model w) (fst b) (snd b))
                  else None
  | Raise _ => True
  end.
Proof.
  destruct b as [x y].
  unfold NB2Lightning.validation_step, NB2Lightning.forward, call_model,
    apply_loss, log, bind, read, lift, ret, modify.
  destruct (call (model w) x) as [y_hat|e]; simpl; [|exact I].
  destruct (loss_fn (squeeze y_hat) y) as [v|e]; simpl; [|exact I].
  reflexivity.
Qed.

(** C1 (as the code has it): a validation step leaves the model (every
    parameter), the optimizer, the gradient buffers and the histories as
    they were.  It does not switch gradient tracking off itself: the loss
    it returns carries a graph exactly when torch's grad mode is on at the
    call.  Run as the validation loop runs its block, under
    [torch.no_grad()], the loss carries no graph, and the whole validation
    loop leaves the model as it was. *)
Theorem validation_step_changes_no_parameter (b : batch F) (idx : nat)
    (w : world F P Mdl G O) :
  model (fst (NB2Lightning.validation_step loss_fn autograd b idx w)) = model w /\
  frame w (fst (NB2Lightning.validation_step loss_fn autograd b idx w)) /\
  match snd (NB2Lightning.validation_step loss_fn autograd b idx w) with
  | Ok l =>
      grad_fn l = if grad_enabled w
                  then Some (autograd (model w) (fst b) (snd b))
                  else None
  | Raise _ => True
  end /\
  frame w (fst (no_grad (NB2Lightning.validation_step loss_fn autograd b idx) w)) /\
  match snd (no_grad (NB2Lightning.validation_step loss_fn autograd b idx) w) with
  | Ok l => grad_fn l = None
  | Raise _ => True
  end /\
  (forall (batches : list (batch F)) (acc : P),
     frame w (fst (no_grad
                     (for_each batches acc
                        (fun acc b =>
                           loss_value <- NB2Lightning.validation_step
                                           loss_fn autograd b idx ;;
                           ret (py_add acc (item (value loss_value))))) w))).
Proof.
  pose proof (validation_step_keeps_frame b idx w) as (Hf & _).
  split; [apply Hf|]. split; [exact Hf|].
  split; [apply validation_step_graph|]. split; [|split].
  - apply no_grad_frame. intros w1. apply validation_step_keeps_frame.
  - unfold no_grad.
    pose proof (validation_step_untracked b idx (with_grad_enabled false w) eq_refl) as Hu.
    destruct (NB2Lightning.validation_step loss_fn autograd b idx
                (with_grad_enabled false w)) as [w1 r].
    exact Hu.
  - intros batches acc. apply no_grad_frame. intros w1.
    apply for_each_frame. intros acc' b' w2. unfold bind.
    pose proof (validation_step_keeps_frame b' idx w2) as (Hf' & _).
    destruct (NB2Lightning.validation_step loss_fn autograd b' idx w2)
      as [w3 [l|e]]; exact Hf'.
Qed.

End Steps.

(** *** The loop against the specification's wording *)

Section Loop.
Variables train_block validation_block
  : batch F -> M (world F P Mdl G O) (loss_t F G).

(** Accumulating while iterating is summing what the steps return. *)
Lemma for_each_sums (f : batch F -> M (world F P Mdl G O) (loss_t F G))
    (xs : list (batch F)) :
  forall (acc : P) (w : world F P Mdl G O),
  for_each xs acc
    (fun acc b => loss_value <- f b ;; ret (py_add acc (item (value loss_value)))) w
  = (losses <- mapM f xs ;;
     ret (fold_left py_add (map (fun l => item (value l)) losses) acc)) w.
Proof.
  induction xs as [|b xs IH]; intros acc w; [reflexivity|].
  cbn [for_each mapM]. unfold bind at 1 2 4 5.
  destruct (f b w) as [w1 [l|e]]; [|reflexivity].
  unfold ret at 1. rewrite IH. unfold bind.
  destruct (mapM f xs w1) as [w2 [ls|e]]; reflexivity.
Qed.

Lemma bind_ext {A B} (c : M (world F P Mdl G O) A)
    (k1 k2 : A -> M (world F P Mdl G O) B) (w : world F P Mdl G O) :
  (forall a w', k1 a w' = k2 a w') -> bind c k1 w = bind c k2 w.
Proof.
  intros Hk. unfold bind. destruct (c w) as [w' [a|e]]; [apply Hk | reflexivity].
Qed.

Lemma bind_lift_Ok {A B} (a : A) (k : A -> M (world F P Mdl G O) B)
    (w : world F P Mdl G O) :
  bind (lift (Ok a)) k w = k a w.
Proof. reflexivity. Qed.

Lemma for_each_sums_bind {B} (f : batch F -> M (world F P Mdl G O) (loss_t F G))
    (xs : list (batch F)) (acc : P) (k : P -> M (world F P Mdl G O) B)
    (w : world F P Mdl G O) :
  bind (for_each xs acc
          (fun acc b => loss_value <- f b ;;
                        ret (py_add acc (item (value loss_value))))) k w
  = bind (mapM f xs)
         (fun losses =>
            k (fold_left py_add (map (fun l => item (value l)) losses) acc)) w.
Proof.
  unfold bind at 1. rewrite for_each_sums. unfold bind, ret.
  destruct (mapM f xs w) as [w1 [ls|e]]; reflexivity.
Qed.

Lemma no_grad_for_each_sums_bind {B}
    (f : batch F -> M (world F P Mdl G O) (loss_t F G))
    (xs : list (batch F)) (acc : P) (k : P -> M (world F P Mdl G O) B)
    (w : world F P Mdl G O) :
  bind (no_grad
          (for_each xs acc
             (fun acc b => loss_value <- f b ;;
                           ret (py_add acc (item (value loss_value)))))) k w
  = bind (no_grad (mapM f xs))
         (fun losses =>
            k (fold_left py_add (map (fun l => item (value l)) losses) acc)) w.
Proof.
  unfold bind at 1 3. unfold no_grad. rewrite for_each_sums. unfold bind, ret.
  destruct (mapM f xs (with_grad_enabled false w)) as [w1 [ls|e]]; reflexivity.
Qed.

Lemma py_truediv_nonempty {A} (x : P) (xs : list A) :
  xs <> [] -> py_truediv x (length xs) = Ok (py_div x (py_of_nat (length xs))).
Proof. destruct xs; [contradiction | reflexivity]. Qed.

(** C2: on non-empty batch lists the epoch loop is the specification's
    epoch: the training block on each train batch in list order, then the
    validation block on each validation batch in list order, returning
    both sums of losses divided by the number of batches. *)
Theorem run_epoch_averages (dataloader_train dataloader_validation : list (batch F)) :
  dataloader_train <> [] -> dataloader_validation <> [] ->
  forall w,
    NB1.run_epoch train_block validation_block
                  dataloader_train dataloader_validation w
    = EpochSpec.epoch_by_spec train_block validation_block
                  dataloader_train dataloader_validation w.
Proof.
  intros Ht Hv w.
  unfold NB1.run_epoch, EpochSpec.epoch_by_spec, EpochSpec.average.
  apply bind_ext. intros _ w0.
  rewrite for_each_sums_bind. apply bind_ext. intros losses w1.
  rewrite (py_truediv_nonempty _ _ Ht), bind_lift_Ok. cbv zeta.
  apply bind_ext. intros _ w2. apply bind_ext. intros _ w3.
  rewrite no_grad_for_each_sums_bind. apply bind_ext. intros vlosses w4.
  rewrite (py_truediv_nonempty _ _ Hv), bind_lift_Ok.
  reflexivity.
Qed.

(** C3 (as the code has it): with no train batches the loop raises the
    division error having only switched the model to training mode; with
    train batches whose steps succeed and no validation batches it raises
    the division error after the training phase, in the world that phase
    left (history extended, model in evaluation mode); run again from
    there it raises the division error again if the training steps
    succeed again. *)
Theorem run_epoch_empty_batches :
  (forall dataloader_validation w,
     NB1.run_epoch train_block validation_block [] dataloader_validation w
     = (with_model (set_training true) w, Raise EmptyBatch)) /\
  (forall dataloader_train w w1 losses,
     dataloader_train <> [] ->
     (model_train ;; mapM train_block dataloader_train) w = (w1, Ok losses) ->
     NB1.run_epoch train_block validation_block dataloader_train [] w
     = (with_model (set_training false)
          (with_train_losses
             (train_losses w1
                ++ [EpochSpec.average (length dataloader_train) losses]) w1),
        Raise EmptyBatch)) /\
  (forall dataloader_train w w1 losses w2 losses2,
     dataloader_train <> [] ->
     (model_train ;; mapM train_block dataloader_train) w = (w1, Ok losses) ->
     (model_train ;; mapM train_block dataloader_train)
       (fst (NB1.run_epoch train_block validation_block dataloader_train [] w))
       = (w2, Ok losses2) ->
     snd (NB1.run_epoch train_block validation_block dataloader_train [] w)
       = Raise EmptyBatch /\
     snd (NB1.run_epoch train_block validation_block dataloader_train []
            (fst (NB1.run_epoch train_block validation_block dataloader_train [] w)))
       = Raise EmptyBatch).
Proof.
  assert (Hsecond : forall dataloader_train w w1 losses,
     dataloader_train <> [] ->
     (model_train ;; mapM train_block dataloader_train) w = (w1, Ok losses) ->
     NB1.run_epoch train_block validation_block dataloader_train [] w
     = (with_model (set_training false)
          (with_train_losses
             (train_losses w1
                ++ [EpochSpec.average (length dataloader_train) losses]) w1),
        Raise EmptyBatch)).
  { intros tb w w1 ls Ht Hphase.
    unfold NB1.run_epoch. unfold bind at 1. unfold bind at 1 in Hphase.
    destruct (model_train w) as [w0 [[]|e]]; [|discriminate].
    rewrite for_each_sums_bind. unfold bind at 1. rewrite Hphase.
    rewrite (py_truediv_nonempty _ _ Ht), bind_lift_Ok.
    destruct w1. reflexivity. }
  split; [|split].
  - intros vb w. reflexivity.
  - exact Hsecond.
  - intros tb w w1 ls w2 ls2 Ht Hp1 Hp2.
    rewrite (Hsecond tb _ w2 ls2 Ht Hp2).
    rewrite (Hsecond tb w w1 ls Ht Hp1). split; reflexivity.
Qed.

End Loop.
End EpochFacts.

(** ** Concrete runs *)

Section Runs.
Import Demo Float32.

Example train_step_updates_parameters :
  weight (NB1.layer1 (model (fst (train_step batch0 w0))))
    = [repeat (f32_of_Z 1) 30] /\
  bias (NB1.layer1 (model (fst (train_step batch0 w0)))) = [f32_of_Z 1] /\
  match snd (train_step batch0 w0) with
  | Ok l => value l = f32_of_Z 1
  | Raise _ => False
  end.
Proof. vm_compute. repeat split. Qed.

Example run_epoch_one_batch :
  snd (NB1.run_epoch train_step validation_step [batch0] [batch0] w0)
  = Ok (f64_of_Z 1, f64_of_Z 1861).
Proof. vm_compute. reflexivity. Qed.

Example sweep_constructor_widths :
  map dims (NB2Sweep.layers
              (fst (NB2Sweep.BreastCancerClassifier_init 0 4 (@nil f32))))
    = [(30, 4); (4, 1)] /\
  map dims (NB2Sweep.layers
              (fst (NB2Sweep.BreastCancerClassifier_init 2 4 (@nil f32))))
    = [(30, 4); (4, 4); (4, 1)] /\
  map dims (NB2Sweep.layers
              (fst (NB2Sweep.BreastCancerClassifier_init (-3) 4 (@nil f32))))
    = [(30, 4); (4, 1)].
Proof. repeat split. Qed.

Example validation_step_runs_untracked :
  match snd (no_grad (validation_step batch0) w0) with
  | Ok l => value l = f32_of_Z 1 /\ grad_fn l = None
  | Raise _ => False
  end /\
  model (fst (no_grad (validation_step batch0) w0)) = model w0.
Proof. vm_compute. repeat split. Qed.

Example validation_step_single_sample_shapes :
  shape (squeeze {| shape := [1; 1]; data := [f32_of_Z 0] |}) = [] /\
  numel (squeeze {| shape := [1; 1]; data := [f32_of_Z 0] |}) = 1.
Proof. split; reflexivity. Qed.

Lemma CancerDataset_getitem_spec_witness :
  NB1.wf_frame frame0 /\
  length (NB1.values frame0) = 2 /\
  length [f32_of_Z 0; f32_of_Z 1] = 2 /\
  (- Z.of_nat 2 <= -1 < 0)%Z /\
  NB1.CancerDataset_getitem dataset0 (-1)
    = NB1.CancerDataset_getitem dataset0 (-1 + Z.of_nat 2).
Proof.
  assert (Hwf : NB1.wf_frame frame0)
    by (repeat constructor).
  assert (Hneg : (- Z.of_nat 2 <= -1 < 0)%Z) by (simpl; lia).
  split; [exact Hwf|]. split; [reflexivity|]. split; [reflexivity|].
  split; [exact Hneg|].
  exact (proj1 (proj2 (proj2
           (CancerDataset_getitem_spec frame0 [f32_of_Z 0; f32_of_Z 1] 2 (-1)
              Hwf eq_refl eq_refl))) Hneg).
Defined.

(** C4, as stated, fails: index -1 lies outside [0, 2) and yields the last
    sample instead of raising; and index 2^63, outside [0, 2) as well,
    raises [ValueError], not [IndexError]. *)
Lemma CancerDataset_getitem_negative_index :
  NB1.CancerDataset_len dataset0 = Ok 2 /\
  ~ (0 <= -1 < 2)%Z /\
  NB1.CancerDataset_getitem dataset0 (-1)
    = Ok (tensor1 [f32_of_Z 3; f32_of_Z 4], scalar (f32_of_Z 1)) /\
  NB1.CancerDataset_getitem dataset0 (-1) <> Raise IndexError /\
  NB1.CancerDataset_getitem dataset0 9223372036854775808 = Raise ValueError /\
  NB1.CancerDataset_getitem dataset0 9223372036854775808 <> Raise IndexError.
Proof.
  split; [reflexivity|]. split; [lia|]. split; [reflexivity|].
  split; [vm_compute; discriminate|]. split; [reflexivity|].
  vm_compute. discriminate.
Qed.

(** C1, as stated, fails: called with grad mode on, the validation step
    changes no parameter but returns a loss that carries a graph. *)
Lemma validation_step_tracks_in_grad_mode :
  grad_enabled w0 = true /\
  model (fst (validation_step batch0 w0)) = model w0 /\
  match snd (validation_step batch0 w0) with
  | Ok l => grad_fn l <> None
  | Raise _ => False
  end.
Proof.
  split; [reflexivity|]. split; [reflexivity|].
  vm_compute. discriminate.
Qed.

Lemma run_epoch_averages_witness :
  [batch0] <> [] /\ [batch0] <> [] /\
  NB1.run_epoch train_step validation_step [batch0] [batch0] w0
  = EpochSpec.epoch_by_spec train_step validation_step [batch0] [batch0] w0.
Proof.
  assert (Hne : [batch0] <> []) by discriminate.
  split; [exact Hne|]. split; [exact Hne|].
  exact (run_epoch_averages train_step validation_step [batch0] [batch0]
           Hne Hne w0).
Defined.

Lemma run_epoch_empty_batches_witness :
  [batch0] <> [] /\
  (model_train ;; mapM train_step [batch0]) w0 = (w1, Ok losses1) /\
  NB1.run_epoch train_step validation_step [batch0] [] w0
  = (with_model (set_training false)
       (with_train_losses
          (train_losses w1 ++ [EpochSpec.average (length [batch0]) losses1]) w1),
     Raise EmptyBatch).
Proof.
  assert (Hne : [batch0] <> []) by discriminate.
  assert (Hphase : (model_train ;; mapM train_step [batch0]) w0 = (w1, Ok losses1))
    by (vm_compute; reflexivity).
  split; [exact Hne|]. split; [exact Hphase|].
  exact (proj1 (proj2 (run_epoch_empty_batches train_step validation_step))
           [batch0] w0 w1 losses1 Hne Hphase).
Defined.

(** C3, as stated, fails: with train batches and no validation batches the
    loop raises the division error only after the training phase has
    changed the parameters and the loss history; and when a training step
    itself fails, the error raised is that step's, not the division
    error. *)
Lemma run_epoch_failure_after_training :
  snd (NB1.run_epoch train_step validation_step [batch0] [] w0)
    = Raise EmptyBatch /\
  NB1.layer1 (model (fst (NB1.run_epoch train_step validation_step [batch0] [] w0)))
    <> NB1.layer1 (model w0) /\
  train_losses (fst (NB1.run_epoch train_step validation_step [batch0] [] w0))
    <> train_losses w0 /\
  snd (NB1.run_epoch train_step validation_step [narrow_batch] [] w0)
    = Raise ShapeMismatch /\
  snd (NB1.run_epoch train_step validation_step [narrow_batch] [] w0)
    <> Raise EmptyBatch.
Proof.
  split; [vm_compute; reflexivity|].
  split; [vm_compute; discriminate|].
  split; [vm_compute; discriminate|].
  split; [vm_compute; reflexivity|].
  vm_compute; discriminate.
Qed.

End Runs.

(** ** The training step and the Lightning steps *)

Section StepFacts.
Context {F P : Type} `{Dtype F} `{PyNumber F P}.
Context {Mdl G O : Type} `{NNModule F Mdl}.
Variable loss_function : tensor F -> tensor F -> result F.
Variable autograd : Mdl -> tensor F -> tensor F -> G.
Variable grad_add : G -> G -> G.
Variable optimizer_update : O -> Mdl -> option G -> O * Mdl.

Ltac run_step :=
  unfold NB1.train_step, NB2Lightning.training_step,
    NB2Lightning.validation_step, NB2Lightning.forward,
    zero_grad, call_model, apply_loss, backward, optimizer_step, log,
    bind, read, lift, ret, modify, raise;
  cbn [model optimizer grad grad_enabled logged train_losses validation_losses
       with_grad with_optimizer with_logged fst snd value grad_fn].

(** X1: the step clears the gradient buffers first, so whatever was
    accumulated in [.grad] before has no influence on its outcome. *)
Theorem train_step_ignores_stale_gradient
    (b : batch F) (stale : option G) (w : world F P Mdl G O) :
  NB1.train_step loss_function autograd grad_add optimizer_update b
    (with_grad stale w)
  = NB1.train_step loss_function autograd grad_add optimizer_update b w.
Proof. destruct b as [x y]. reflexivity. Qed.

(** X2: a training step that raises has updated neither the model nor the
    optimizer; it leaves the gradient buffers cleared and everything else
    as it was. *)
Theorem train_step_failure_updates_nothing
    (b : batch F) (w : world F P Mdl G O) (e : exn) :
  snd (NB1.train_step loss_function autograd grad_add optimizer_update b w)
    = Raise e ->
  fst (NB1.train_step loss_function autograd grad_add optimizer_update b w)
    = with_grad None w.
Proof.
  destruct b as [x y]. run_step.
  destruct (call (model w) x) as [y_pred|e1]; cbn; [|reflexivity].
  destruct (loss_function (squeeze y_pred) y) as [v|e2]; cbn; [|reflexivity].
  destruct (grad_enabled w); cbn; [discriminate | reflexivity].
Qed.

(** X3: with gradient tracking off the training step always raises, and
    when the model and the loss rule themselves succeed the error is the
    [RuntimeError] of [backward()]. *)
Theorem train_step_needs_grad_mode
    (x y : tensor F) (w : world F P Mdl G O) :
  grad_enabled w = false ->
  (exists e,
     NB1.train_step loss_function autograd grad_add optimizer_update (x, y) w
     = (with_grad None w, Raise e)) /\
  match call (model w) x with
  | Ok y_pred =>
      match loss_function (squeeze y_pred) y with
      | Ok _ =>
          snd (NB1.train_step loss_function autograd grad_add optimizer_update
                 (x, y) w) = Raise RuntimeError
      | Raise _ => True
      end
  | Raise _ => True
  end.
Proof.
  intros Hoff. run_step.
  destruct (call (model w) x) as [y_pred|e1]; cbn; [|split; [eauto | exact I]].
  destruct (loss_function (squeeze y_pred) y) as [v|e2]; cbn;
    [|split; [eauto | exact I]].
  rewrite Hoff. cbn. split; [eauto | reflexivity].
Qed.

(** X4: with gradient tracking on, the training step of notebook 1 and the
    [training_step] of the Lightning module return the same result, loss
    or exception, from the same world. *)
Theorem train_step_agrees_with_training_step
    (b : batch F) (batch_idx : nat) (w : world F P Mdl G O) :
  grad_enabled w = true ->
  snd (NB1.train_step loss_function autograd grad_add optimizer_update b w)
  = snd (NB2Lightning.training_step loss_function autograd b batch_idx w).
Proof.
  intros Hon. destruct b as [x y]. run_step.
  destruct (call (model w) x) as [y_pred|e1]; cbn; [|reflexivity].
  destruct (loss_function (squeeze y_pred) y) as [v|e2]; cbn; [|reflexivity].
  rewrite Hon. reflexivity.
Qed.

(** X5: [training_step] itself updates nothing (model, optimizer, gradient
    buffers and histories stay), and it returns what [validation_step]
    returns from the same world, whatever the batch indices. *)
Theorem training_step_only_computes_the_loss
    (b : batch F) (i j : nat) (w : world F P Mdl G O) :
  frame w (fst (NB2Lightning.training_step loss_function autograd b i w)) /\
  grad_enabled (fst (NB2Lightning.training_step loss_function autograd b i w))
    = grad_enabled w /\
  snd (NB2Lightning.training_step loss_function autograd b i w)
  = snd (NB2Lightning.validation_step loss_function autograd b j w).
Proof.
  destruct b as [x y]. run_step.
  destruct (call (model w) x) as [y_pred|e1]; cbn;
    [|unfold frame; auto 10].
  destruct (loss_function (squeeze y_pred) y) as [v|e2]; cbn;
    unfold frame; cbn; auto 10.
Qed.

(** X6: each Lightning step logs exactly one metric when it succeeds, its
    loss under ['train_loss'] or ['val_loss'], appended after what was
    logged before, and logs nothing when it raises. *)
Theorem steps_log_once_on_success
    (b : batch F) (batch_idx : nat) (w : world F P Mdl G O) :
  logged (fst (NB2Lightning.training_step loss_function autograd b batch_idx w))
    = logged w
      ++ match snd (NB2Lightning.training_step loss_function autograd
                      b batch_idx w) with
         | Ok l => [("train_loss"%string, value l)]
         | Raise _ => []
         end /\
  logged (fst (NB2Lightning.validation_step loss_function autograd b batch_idx w))
    = logged w
      ++ match snd (NB2Lightning.validation_step loss_function autograd
                      b batch_idx w) with
         | Ok l => [("val_loss"%string, value l)]
         | Raise _ => []
         end.
Proof.
  destruct b as [x y]. run_step.
  destruct (call (model w) x) as [y_pred|e1]; cbn;
    [|now rewrite app_nil_r].
  destruct (loss_function (squeeze y_pred) y) as [v|e2]; cbn;
    [split; reflexivity | now rewrite app_nil_r].
Qed.

(** What the blocks used in the epoch loop leave alone. *)
Lemma train_step_keeps_histories :
  NB1Epochs.keeps_histories
    (NB1.train_step (P:=P) loss_function autograd grad_add optimizer_update).
Proof.
  intros [x y] w. unfold NB1Epochs.same_histories. run_step.
  destruct (call (model w) x) as [y_pred|e1]; cbn; [|now split].
  destruct (loss_function (squeeze y_pred) y) as [v|e2]; cbn; [|now split].
  destruct (grad_enabled w); cbn; now split.
Qed.

Lemma train_step_keeps_grad_mode :
  NB1Epochs.keeps_grad_mode
    (NB1.train_step (P:=P) loss_function autograd grad_add optimizer_update).
Proof.
  intros [x y] w. run_step.
  destruct (call (model w) x) as [y_pred|e1]; cbn; [|reflexivity].
  destruct (loss_function (squeeze y_pred) y) as [v|e2]; cbn; [|reflexivity].
  destruct (grad_enabled w) eqn:Hmode; cbn; exact Hmode.
Qed.

Lemma validation_step_keeps_histories (idx : nat) :
  NB1Epochs.keeps_histories
    (fun b => NB2Lightning.validation_step (P:=P) (O:=O)
                loss_function autograd b idx).
Proof.
  intros [x y] w. unfold NB1Epochs.same_histories. run_step.
  destruct (call (model w) x) as [y_pred|e1]; cbn; [|now split].
  destruct (loss_function (squeeze y_pred) y) as [v|e2]; cbn; now split.
Qed.

End StepFacts.

(** ** Inputs of any rank, samples of the dataset, fresh models *)

Section RankFacts.
Context {F : Type} `{Dtype F}.

Lemma linear_any (l : Linear F) (x : tensor F) (lead : list nat) :
  wf_Linear l -> shape x = lead ++ [in_features l] ->
  exists y, linear l x = Ok y /\
            shape y = lead ++ [out_features l] /\
            numel y = numel_of lead * out_features l.
Proof.
  intros Hwf Hs. unfold linear. rewrite Hs, rev_unit, Nat.eqb_refl.
  rewrite rev_involutive.
  eexists. split; [reflexivity|]. split; [reflexivity|].
  unfold numel. cbn [data].
  rewrite (flat_map_length_const _ (out_features l)), chunks_length
    by (intro; now apply affine_row_length).
  reflexivity.
Qed.

Lemma linear_rejects (l : Linear F) (x : tensor F) :
  (forall lead, shape x <> lead ++ [in_features l]) ->
  linear l x = Raise RuntimeError.
Proof.
  intros Hno. unfold linear.
  destruct (rev (shape x)) as [|w lead] eqn:Hrev; [reflexivity|].
  destruct (Nat.eqb_spec w (in_features l)) as [->|]; [|reflexivity].
  exfalso. apply (Hno (rev lead)).
  rewrite <- (rev_involutive (shape x)), Hrev. reflexivity.
Qed.

Lemma shaped_linear_any (i o : nat) (l : Linear F) (x : tensor F)
    (lead : list nat) :
  shaped i o l -> shape x = lead ++ [i] ->
  exists y, linear l x = Ok y /\ shape y = lead ++ [o] /\
            numel y = numel_of lead * o.
Proof.
  intros (Hwf & Hd) Hs. unfold dims in Hd. injection Hd as Hi Ho. subst i o.
  now apply linear_any.
Qed.

Lemma shaped_linear_rejects (i o : nat) (l : Linear F) (x : tensor F) :
  shaped i o l -> (forall lead, shape x <> lead ++ [i]) ->
  linear l x = Raise RuntimeError.
Proof.
  intros (_ & Hd) Hno. unfold dims in Hd. injection Hd as Hi Ho. subst i.
  now apply linear_rejects.
Qed.

Lemma forward_hidden_any (hn : nat) (mids : list (Linear F)) :
  Forall (shaped hn hn) mids ->
  forall (x : tensor F) (lead : list nat), shape x = lead ++ [hn] ->
  exists y, NB2Sweep.forward_hidden mids x = Ok y /\ shape y = lead ++ [hn].
Proof.
  induction 1 as [|l mids Hl Hmids IH]; intros x lead Hs; simpl.
  - now exists x.
  - destruct (shaped_linear_any hn hn l x lead Hl Hs) as (y & -> & Hy & _).
    cbn [rbind]. apply IH. now rewrite relu_shape.
Qed.

Lemma nb1_forward_any (m : NB1.BreastCancerClassifier F) (x : tensor F)
    (lead : list nat) :
  shaped_nb1 m -> shape x = lead ++ [30] ->
  exists y, NB1.forward m x = Ok y /\ shape y = lead ++ [1] /\
            numel y = numel_of lead.
Proof.
  intros H1 Hs. unfold NB1.forward.
  destruct (shaped_linear_any _ _ _ x lead H1 Hs) as (y & -> & Hy & Hn).
  cbn [rbind]. exists y. rewrite Nat.mul_1_r in Hn. now repeat split.
Qed.

Lemma fixed_forward_any (m : NB2Fixed.BreastCancerClassifier F)
    (x : tensor F) (lead : list nat) :
  shaped_fixed m -> shape x = lead ++ [30] ->
  exists y, NB2Fixed.forward m x = Ok y /\ shape y = lead ++ [1] /\
            numel y = numel_of lead.
Proof.
  intros (H1 & H2 & H3) Hs. unfold NB2Fixed.forward.
  destruct (shaped_linear_any _ _ _ x lead H1 Hs) as (y1 & -> & Hy1 & _).
  cbn [rbind].
  destruct (shaped_linear_any _ _ _ (relu y1) lead H2) as (y2 & -> & Hy2 & _);
    [now rewrite relu_shape|].
  cbn [rbind].
  destruct (shaped_linear_any _ _ _ (relu y2) lead H3) as (y3 & -> & Hy3 & Hn3);
    [now rewrite relu_shape|].
  cbn [rbind]. exists y3. rewrite Nat.mul_1_r in Hn3. now repeat split.
Qed.

Lemma sweep_forward_any (hl : Z) (hn : nat)
    (m : NB2Sweep.BreastCancerClassifier F) (x : tensor F) (lead : list nat) :
  has_architecture hl hn m -> shape x = lead ++ [30] ->
  exists y, NB2Sweep.forward m x = Ok y /\ shape y = lead ++ [1] /\
            numel y = numel_of lead.
Proof.
  intros Ha Hs.
  destruct (has_architecture_layers hl hn m Ha)
    as (l0 & mids & lN & Hl & H0 & Hmids & HN & _).
  unfold NB2Sweep.forward. rewrite Hl, removelast_last, last_layer_snoc.
  cbn [NB2Sweep.forward_hidden].
  destruct (shaped_linear_any 30 hn l0 x lead H0 Hs) as (y0 & -> & Hy0 & _).
  cbn [rbind].
  destruct (forward_hidden_any hn mids Hmids (relu y0) lead)
    as (h & -> & Hh); [now rewrite relu_shape|].
  cbn [rbind].
  destruct (shaped_linear_any hn 1 lN h lead HN Hh) as (y & -> & Hy & Hny).
  cbn [rbind]. exists y. rewrite Nat.mul_1_r in Hny. now repeat split.
Qed.

Lemma sweep_forward_rejects (hl : Z) (hn : nat)
    (m : NB2Sweep.BreastCancerClassifier F) (x : tensor F) :
  has_architecture hl hn m -> (forall lead, shape x <> lead ++ [30]) ->
  NB2Sweep.forward m x = Raise RuntimeError.
Proof.
  intros Ha Hno.
  destruct (has_architecture_layers hl hn m Ha)
    as (l0 & mids & lN & Hl & H0 & _).
  unfold NB2Sweep.forward. rewrite Hl, removelast_last.
  cbn [NB2Sweep.forward_hidden].
  now rewrite (shaped_linear_rejects 30 hn l0 x H0 Hno).
Qed.

(** X7: a classifier accepts exactly the inputs whose last dimension is
    30, of any rank: it then returns one logit per leading index, in the
    shape of the input with the last dimension replaced by 1; every other
    input, a 0-d tensor included, raises the width-mismatch error. *)
Theorem forward_accepts_exactly_width_30 (x : tensor F) :
  (forall m, shaped_nb1 m ->
     (forall lead, shape x = lead ++ [30] ->
        exists y, NB1.forward m x = Ok y /\ shape y = lead ++ [1] /\
                  numel y = numel_of lead) /\
     ((forall lead, shape x <> lead ++ [30]) ->
        NB1.forward m x = Raise ShapeMismatch)) /\
  (forall m, shaped_fixed m ->
     (forall lead, shape x = lead ++ [30] ->
        exists y, NB2Fixed.forward m x = Ok y /\ shape y = lead ++ [1] /\
                  numel y = numel_of lead) /\
     ((forall lead, shape x <> lead ++ [30]) ->
        NB2Fixed.forward m x = Raise ShapeMismatch)) /\
  (forall hl hn m, has_architecture hl hn m ->
     (forall lead, shape x = lead ++ [30] ->
        exists y, NB2Sweep.forward m x = Ok y /\ shape y = lead ++ [1] /\
                  numel y = numel_of lead) /\
     ((forall lead, shape x <> lead ++ [30]) ->
        NB2Sweep.forward m x = Raise ShapeMismatch)).
Proof.
  repeat apply conj.
  - intros m Hm. split.
    + intros lead Hs. now apply nb1_forward_any.
    + intros Hno. unfold NB1.forward.
      now rewrite (shaped_linear_rejects 30 1 _ x Hm Hno).
  - intros m Hm. split.
    + intros lead Hs. now apply fixed_forward_any.
    + intros Hno. destruct Hm as (Hm & _). unfold NB2Fixed.forward.
      now rewrite (shaped_linear_rejects 30 20 _ x Hm Hno).
  - intros hl hn m Hm. split.
    + intros lead Hs. now apply (sweep_forward_any hl hn).
    + intros Hno. now apply (sweep_forward_rejects hl hn).
Qed.

(** X8: a model straight out of its constructor, whatever the
    configuration and the random source, takes a batch of shape [(n, 30)]
    to [n] logits of shape [(n, 1)]. *)
Theorem fresh_model_accepts_batches
    (R : Type) (I : Initializer F R) (r : R) (x : tensor F) (n : nat) :
  shape x = [n; 30] ->
  (exists y, NB1.forward (fst (NB1.BreastCancerClassifier_init r)) x = Ok y /\
             shape y = [n; 1] /\ numel y = n) /\
  (exists y, NB2Fixed.forward (fst (NB2Fixed.BreastCancerClassifier_init r)) x
             = Ok y /\ shape y = [n; 1] /\ numel y = n) /\
  (forall hidden_layers hidden_neurons,
     exists y,
       NB2Sweep.forward
         (fst (NB2Sweep.BreastCancerClassifier_init hidden_layers hidden_neurons r))
         x = Ok y /\ shape y = [n; 1] /\ numel y = n).
Proof.
  intros Hs. repeat apply conj.
  - apply nb1_forward_batch; [apply nb1_init_shaped | exact Hs].
  - apply fixed_forward_batch; [apply fixed_init_shaped | exact Hs].
  - intros hl hn.
    apply (sweep_forward_batch hl hn); [apply init_has_architecture | exact Hs].
Qed.

(** X9: on the same layers the configurable classifier computes what the
    linear classifier and the three-layer classifier compute, and with more
    than one layer it is its first layer, the activation, and then the
    configurable classifier on the remaining layers. *)
Theorem configurable_forward_generalises :
  (forall (l1 : Linear F) t1 t2 x,
     NB2Sweep.forward {| NB2Sweep.layers := [l1]; NB2Sweep.training := t1 |} x
     = NB1.forward {| NB1.layer1 := l1; NB1.training := t2 |} x) /\
  (forall (l1 l2 l3 : Linear F) t1 t2 x,
     NB2Sweep.forward
       {| NB2Sweep.layers := [l1; l2; l3]; NB2Sweep.training := t1 |} x
     = NB2Fixed.forward
         {| NB2Fixed.layer1 := l1; NB2Fixed.layer2 := l2;
            NB2Fixed.layer3 := l3; NB2Fixed.training := t2 |} x) /\
  (forall (l l' : Linear F) ls t x,
     NB2Sweep.forward
       {| NB2Sweep.layers := l :: l' :: ls; NB2Sweep.training := t |} x
     = let? y := linear l x in
       NB2Sweep.forward
         {| NB2Sweep.layers := l' :: ls; NB2Sweep.training := t |} (relu y)).
Proof.
  repeat apply conj.
  - intros l1 t1 t2 x. reflexivity.
  - intros l1 l2 l3 t1 t2 x. unfold NB2Sweep.forward, NB2Fixed.forward. cbn.
    destruct (linear l1 x) as [y1|]; cbn; [|reflexivity].
    destruct (linear l2 (relu y1)) as [y2|]; reflexivity.
  - intros l l' ls t x. unfold NB2Sweep.forward. cbn [NB2Sweep.layers].
    rewrite last_layer_cons.
    change (removelast (l :: l' :: ls)) with (l :: removelast (l' :: ls)).
    cbn [NB2Sweep.forward_hidden]. rewrite rbind_assoc.
    destruct (linear l x) as [y|e]; reflexivity.
Qed.

End RankFacts.

(** ** Samples of the dataset *)

Section SampleFacts.
Context {F : Type} `{Dtype F}.

(** Indexing when the label vector and the table differ in length. *)
Lemma getitem_pair (df : NB1.DataFrame F) (ts : list F) (idx : Z) (i j : nat) :
  NB1.wf_frame df ->
  wrap_index (length (NB1.values df)) idx = Ok i -> i < length (NB1.values df) ->
  wrap_index (length ts) idx = Ok j -> j < length ts ->
  NB1.CancerDataset_getitem (NB1.CancerDataset_init df ts) idx
  = Ok ({| shape := [NB1.ncolumns df]; data := nth i (NB1.values df) [] |},
        scalar (nth j ts fzero)).
Proof.
  intros Hwf Hi Hil Hj Hjl. unfold NB1.CancerDataset_getitem.
  cbn [NB1.CancerDataset_init NB1.features NB1.targets].
  rewrite (getitem_tensor2_at _ _ idx i Hwf Hi Hil). cbn [rbind].
  now rewrite (getitem_tensor1_at ts fzero idx j Hj Hjl).
Qed.

Lemma getitem_label_raises (df : NB1.DataFrame F) (ts : list F) (idx : Z)
    (i : nat) (e : exn) :
  NB1.wf_frame df ->
  wrap_index (length (NB1.values df)) idx = Ok i -> i < length (NB1.values df) ->
  wrap_index (length ts) idx = Raise e ->
  NB1.CancerDataset_getitem (NB1.CancerDataset_init df ts) idx = Raise e.
Proof.
  intros Hwf Hi Hil Hj. unfold NB1.CancerDataset_getitem.
  cbn [NB1.CancerDataset_init NB1.features NB1.targets].
  rewrite (getitem_tensor2_at _ _ idx i Hwf Hi Hil). cbn [rbind].
  now rewrite (getitem_raises (tensor1 ts) _ _ idx e eq_refl Hj).
Qed.

Lemma getitem_row_raises (df : NB1.DataFrame F) (ts : list F) (idx : Z)
    (e : exn) :
  wrap_index (length (NB1.values df)) idx = Raise e ->
  NB1.CancerDataset_getitem (NB1.CancerDataset_init df ts) idx = Raise e.
Proof.
  intros Hi. unfold NB1.CancerDataset_getitem.
  cbn [NB1.CancerDataset_init NB1.features].
  now rewrite (getitem_raises (tensor2 _ _) _ _ idx e eq_refl Hi).
Qed.

(** Outside the common range one of the two lookups raises, and both raise
    the same exception for the same index. *)
Lemma getitem_outside_common_range (df : NB1.DataFrame F) (ts : list F)
    (idx : Z) :
  NB1.wf_frame df ->
  let k := Z.of_nat (Nat.min (length (NB1.values df)) (length ts)) in
  (idx < - k \/ k <= idx)%Z ->
  NB1.CancerDataset_getitem (NB1.CancerDataset_init df ts) idx
  = if fits_int64 idx then Raise IndexError else Raise ValueError.
Proof.
  intros Hwf k Hi. subst k.
  assert (Hout : forall size,
            (idx < - Z.of_nat size \/ Z.of_nat size <= idx)%Z ->
            wrap_index size idx
            = Raise (if fits_int64 idx then IndexError else ValueError)).
  { intros size Hr. rewrite (wrap_index_out_of_range size idx Hr).
    now destruct (fits_int64 idx). }
  replace (if fits_int64 idx then Raise IndexError else Raise ValueError)
    with (@Raise (tensor F * tensor F)
            (if fits_int64 idx then IndexError else ValueError))
    by now destruct (fits_int64 idx).
  destruct (Z_lt_ge_dec idx 0) as [Hneg|Hpos].
  - destruct (Z_lt_ge_dec idx (- Z.of_nat (length (NB1.values df)))) as [Hlow|Hin].
    + apply getitem_row_raises, Hout. lia.
    + apply (getitem_label_raises df ts idx
               (Z.to_nat (idx + Z.of_nat (length (NB1.values df)))));
        try assumption;
        [apply wrap_index_negative | | apply Hout]; lia.
  - destruct (Z_lt_ge_dec idx (Z.of_nat (length (NB1.values df)))) as [Hin|Hhigh].
    + apply (getitem_label_raises df ts idx (Z.to_nat idx)); try assumption;
        [apply wrap_index_in_range | | apply Hout]; lia.
    + apply getitem_row_raises, Hout. lia.
Qed.

(** X10: the constructor does not compare the number of rows with the
    number of labels.  With [n] rows and [m] labels, [len] is [n], but only
    the indices in [-min n m, min n m) yield a sample; the others raise,
    [IndexError] when the index fits a signed 64-bit integer and
    [ValueError] when it does not; and a negative index pairs row [n + i]
    with label [m + i], which are different positions when [n] and [m]
    differ. *)
Theorem CancerDataset_getitem_unchecked_lengths
    (df : NB1.DataFrame F) (ts : list F) (n m : nat) (i : Z) :
  NB1.wf_frame df -> length (NB1.values df) = n -> length ts = m ->
  let ds := NB1.CancerDataset_init df ts in
  let k := Z.of_nat (Nat.min n m) in
  NB1.CancerDataset_len ds = Ok n /\
  ((0 <= i < k)%Z ->
     NB1.CancerDataset_getitem ds i =
       Ok ({| shape := [NB1.ncolumns df];
              data := nth (Z.to_nat i) (NB1.values df) [] |},
           scalar (nth (Z.to_nat i) ts fzero))) /\
  ((- k <= i < 0)%Z ->
     NB1.CancerDataset_getitem ds i =
       Ok ({| shape := [NB1.ncolumns df];
              data := nth (Z.to_nat (i + Z.of_nat n)) (NB1.values df) [] |},
           scalar (nth (Z.to_nat (i + Z.of_nat m)) ts fzero))) /\
  ((i < - k \/ k <= i)%Z ->
   (- 9223372036854775808 <= i < 9223372036854775808)%Z ->
     NB1.CancerDataset_getitem ds i = Raise IndexError) /\
  ((i < - k \/ k <= i)%Z ->
   (i < - 9223372036854775808 \/ 9223372036854775808 <= i)%Z ->
     NB1.CancerDataset_getitem ds i = Raise ValueError).
Proof.
  intros Hwf Hn Hm ds k. subst n m. subst ds k.
  split; [reflexivity|]. split; [|split; [|split]].
  - intros Hi. apply getitem_pair; try assumption;
      try (apply wrap_index_in_range); lia.
  - intros Hi. apply getitem_pair; try assumption;
      try (apply wrap_index_negative); lia.
  - intros Hi Hfit. rewrite (getitem_outside_common_range df ts i Hwf Hi).
    now rewrite (proj2 (fits_int64_spec i) Hfit).
  - intros Hi Hbig. rewrite (getitem_outside_common_range df ts i Hwf Hi).
    destruct (fits_int64 i) eqn:Hfit; [|reflexivity].
    apply fits_int64_spec in Hfit. lia.
Qed.

(** X11: every sample of a dataset with thirty columns goes through every
    classifier: for an index in [-n, n) the feature vector of the sample is
    accepted and yields one logit, and the label is a 0-d tensor. *)
Theorem dataset_sample_goes_through_model
    (df : NB1.DataFrame F) (ts : list F) (n : nat) (i : Z) :
  NB1.wf_frame df -> NB1.ncolumns df = 30 ->
  length (NB1.values df) = n -> length ts = n ->
  (- Z.of_nat n <= i < Z.of_nat n)%Z ->
  exists x y,
    NB1.CancerDataset_getitem (NB1.CancerDataset_init df ts) i = Ok (x, y) /\
    shape x = [30] /\ shape y = [] /\
    (forall m, shaped_nb1 m ->
       exists out, NB1.forward m x = Ok out /\ shape out = [1] /\ numel out = 1) /\
    (forall m, shaped_fixed m ->
       exists out, NB2Fixed.forward m x = Ok out /\ shape out = [1] /\ numel out = 1) /\
    (forall hl hn m, has_architecture hl hn m ->
       exists out, NB2Sweep.forward m x = Ok out /\ shape out = [1] /\ numel out = 1).
Proof.
  intros Hwf Hcols Hn Hm Hi.
  assert (Hget : exists j k,
     NB1.CancerDataset_getitem (NB1.CancerDataset_init df ts) i
     = Ok ({| shape := [NB1.ncolumns df]; data := nth j (NB1.values df) [] |},
           scalar (nth k ts fzero))).
  { destruct (Z_lt_ge_dec i 0) as [Hneg|Hpos].
    - exists (Z.to_nat (i + Z.of_nat n)), (Z.to_nat (i + Z.of_nat n)).
      apply getitem_pair; try assumption; rewrite ?Hn, ?Hm;
        try (apply wrap_index_negative); lia.
    - exists (Z.to_nat i), (Z.to_nat i).
      apply getitem_pair; try assumption; rewrite ?Hn, ?Hm;
        try (apply wrap_index_in_range); lia. }
  destruct Hget as (j & k & Hget). rewrite Hget, Hcols.
  eexists _, _. split; [reflexivity|]. split; [reflexivity|].
  split; [reflexivity|]. repeat apply conj.
  - intros m0 Hm0. now apply (nb1_forward_any m0 _ []).
  - intros m0 Hm0. now apply (fixed_forward_any m0 _ []).
  - intros hl hn m0 Hm0. now apply (sweep_forward_any hl hn m0 _ []).
Qed.

End SampleFacts.

(** ** Single-sample batches *)

Section SingleSample.
Context {F P : Type} `{Dtype F} `{PyNumber F P}.
Context {G O : Type}.
Variable loss_fn : tensor F -> tensor F -> result F.

(** X12: a batch of one sample makes the steps raise when the loss rule
    checks shapes: the model returns shape [(1, 1)], [squeeze()] turns it
    into a 0-d tensor, and the target has shape [(1,)].  The Lightning
    steps leave the world as it was; the training step of notebook 1 has
    only cleared the gradient buffers. *)
Theorem single_sample_batch_raises (x y : tensor F) :
  NB1Epochs.checks_shape loss_fn ->
  shape x = [1; 30] -> shape y = [1] ->
  (forall hl hn (w : world F P (NB2Sweep.BreastCancerClassifier F) G O)
          autograd batch_idx,
     has_architecture hl hn (model w) ->
     NB2Lightning.validation_step loss_fn autograd (x, y) batch_idx w
       = (w, Raise ValueError) /\
     NB2Lightning.training_step loss_fn autograd (x, y) batch_idx w
       = (w, Raise ValueError)) /\
  (forall (w : world F P (NB1.BreastCancerClassifier F) G O)
          autograd grad_add optimizer_update,
     shaped_nb1 (model w) ->
     NB1.train_step loss_fn autograd grad_add optimizer_update (x, y) w
       = (with_grad None w, Raise ValueError)).
Proof.
  intros Hcheck Hx Hy. split.
  - intros hl hn w autograd idx Hm.
    destruct (sweep_forward_batch hl hn (model w) x 1 Hm Hx) as (y0 & Hy0 & Hs0 & _).
    destruct (squeeze_column y0 1 Hs0) as (Hsq & _).
    assert (Hloss : loss_fn (squeeze y0) y = Raise ValueError)
      by (apply Hcheck; rewrite Hsq, Hy; cbn; discriminate).
    unfold NB2Lightning.validation_step, NB2Lightning.training_step,
      NB2Lightning.forward, call_model, apply_loss, log, bind, read, lift, ret.
    cbn [call NB2Sweep.BreastCancerClassifier_module]. rewrite Hy0. cbn.
    rewrite Hloss. split; reflexivity.
  - intros w autograd grad_add optimizer_update Hm.
    destruct (nb1_forward_batch (model w) x 1 Hm Hx) as (y0 & Hy0 & Hs0 & _).
    destruct (squeeze_column y0 1 Hs0) as (Hsq & _).
    assert (Hloss : loss_fn (squeeze y0) y = Raise ValueError)
      by (apply Hcheck; rewrite Hsq, Hy; cbn; discriminate).
    unfold NB1.train_step, zero_grad, call_model, apply_loss, bind, read,
      lift, ret, modify.
    cbn [call NB1.BreastCancerClassifier_module model with_grad]. rewrite Hy0.
    cbn. rewrite Hloss. reflexivity.
Qed.

End SingleSample.

(** ** Histories, grad mode and the loop over epochs *)

Section HistoryFacts.
Context {F P : Type} `{Dtype F} `{PyNumber F P}.
Context {Mdl G O : Type} `{NNModule F Mdl}.

(** A loop keeps what its body keeps. *)
Lemma for_each_invariant {A B}
    (R : world F P Mdl G O -> world F P Mdl G O -> Prop)
    (body : B -> A -> M (world F P Mdl G O) B) :
  (forall w, R w w) ->
  (forall w1 w2 w3, R w1 w2 -> R w2 w3 -> R w1 w3) ->
  (forall acc a w, R w (fst (body acc a w))) ->
  forall xs acc w, R w (fst (for_each xs acc body w)).
Proof.
  intros Hrefl Htrans Hbody. induction xs as [|a xs IH]; intros acc w; simpl.
  - apply Hrefl.
  - unfold bind. specialize (Hbody acc a w).
    destruct (body acc a w) as [w1 [acc'|e]]; simpl in *; [|assumption].
    apply (Htrans _ _ _ Hbody), IH.
Qed.

Lemma same_histories_refl (w : world F P Mdl G O) :
  NB1Epochs.same_histories w w.
Proof. now split. Qed.

Lemma same_histories_trans (w1 w2 w3 : world F P Mdl G O) :
  NB1Epochs.same_histories w1 w2 -> NB1Epochs.same_histories w2 w3 ->
  NB1Epochs.same_histories w1 w3.
Proof.
  unfold NB1Epochs.same_histories. intros (? & ?) (? & ?). split; congruence.
Qed.

Section Blocks.
Variables train_block validation_block
  : batch F -> M (world F P Mdl G O) (loss_t F G).

Lemma accumulate_keeps_histories
    (block : batch F -> M (world F P Mdl G O) (loss_t F G))
    (xs : list (batch F)) (acc : P) (w : world F P Mdl G O) :
  NB1Epochs.keeps_histories block ->
  NB1Epochs.same_histories w
    (fst (for_each xs acc
            (fun acc b => loss_value <- block b ;;
                          ret (py_add acc (item (value loss_value)))) w)).
Proof.
  intros Hk.
  apply (for_each_invariant (@NB1Epochs.same_histories F P Mdl G O));
    [apply same_histories_refl | apply same_histories_trans |].
  intros acc' b w'. unfold bind. specialize (Hk b w').
  destruct (block b w') as [w1 [l|e]]; exact Hk.
Qed.

Lemma accumulate_keeps_grad_mode
    (block : batch F -> M (world F P Mdl G O) (loss_t F G))
    (xs : list (batch F)) (acc : P) (w : world F P Mdl G O) :
  NB1Epochs.keeps_grad_mode block ->
  grad_enabled
    (fst (for_each xs acc
            (fun acc b => loss_value <- block b ;;
                          ret (py_add acc (item (value loss_value)))) w))
  = grad_enabled w.
Proof.
  intros Hk.
  apply (for_each_invariant
           (fun w w' : world F P Mdl G O => grad_enabled w' = grad_enabled w));
    [reflexivity | intros; congruence |].
  intros acc' b w'. unfold bind. specialize (Hk b w').
  destruct (block b w') as [w1 [l|e]]; exact Hk.
Qed.

(** What one epoch does to the histories, in every outcome. *)
Lemma run_epoch_histories_outcomes
    (dataloader_train dataloader_validation : list (batch F))
    (w w' : world F P Mdl G O) (r : result (P * P)) :
  NB1Epochs.keeps_histories train_block ->
  NB1Epochs.keeps_histories validation_block ->
  NB1.run_epoch train_block validation_block
                dataloader_train dataloader_validation w = (w', r) ->
  match r with
  | Ok (a, b) =>
      train_losses w' = train_losses w ++ [a] /\
      validation_losses w' = validation_losses w ++ [b]
  | Raise _ =>
      validation_losses w' = validation_losses w /\
      (train_losses w' = train_losses w \/
       exists a, train_losses w' = train_losses w ++ [a])
  end.
Proof.
  intros Ht Hv Hrun. unfold NB1.run_epoch in Hrun.
  unfold bind at 1 in Hrun. unfold model_train at 1 in Hrun.
  unfold modify at 1 in Hrun. cbv beta iota in Hrun.
  unfold bind at 1 in Hrun.
  pose proof (accumulate_keeps_histories train_block dataloader_train
                (py_of_nat 0) (with_model (set_training true) w) Ht)
    as (Ht1 & Hv1).
  destruct (for_each dataloader_train _ _ _) as [w1 [acc|e]];
    cbn [fst snd train_losses validation_losses with_model] in *;
    [|injection Hrun as <- <-; split; [assumption | now left]].
  unfold bind at 1 in Hrun. unfold lift at 1 in Hrun.
  destruct (py_truediv acc (length dataloader_train)) as [a|e];
    [|injection Hrun as <- <-; split; [assumption | now left]].
  unfold bind at 1 in Hrun. unfold modify at 1 in Hrun. cbv beta iota in Hrun.
  unfold bind at 1 in Hrun. unfold model_eval at 1 in Hrun.
  unfold modify at 1 in Hrun. cbv beta iota in Hrun.
  unfold bind at 1 in Hrun. unfold no_grad in Hrun.
  match type of Hrun with
  | context [for_each dataloader_validation ?acc0 ?body ?w0] =>
      pose proof (accumulate_keeps_histories validation_block
                    dataloader_validation acc0 w0 Hv) as (Ht2 & Hv2)
  end.
  destruct (for_each dataloader_validation _ _ _) as [w3 [acc2|e]];
    cbn [fst snd train_losses validation_losses with_grad_enabled
         with_model with_train_losses] in *;
    [|injection Hrun as <- <-; cbn;
      split; [congruence | right; exists a; congruence]].
  unfold bind at 1 in Hrun. unfold lift at 1 in Hrun.
  destruct (py_truediv acc2 (length dataloader_validation)) as [b|e];
    [|injection Hrun as <- <-; cbn;
      split; [congruence | right; exists a; congruence]].
  cbn in Hrun. injection Hrun as <- <-. cbn. split; congruence.
Qed.

Lemma mapM_keeps_histories
    (block : batch F -> M (world F P Mdl G O) (loss_t F G))
    (xs : list (batch F)) :
  NB1Epochs.keeps_histories block ->
  forall w, NB1Epochs.same_histories w (fst (mapM block xs w)).
Proof.
  intros Hk. induction xs as [|b xs IH]; intros w; cbn [mapM].
  - apply same_histories_refl.
  - unfold bind at 1. specialize (Hk b w).
    destruct (block b w) as [w1 [l|e]]; cbn [fst] in *; [|exact Hk].
    unfold bind at 1. specialize (IH w1).
    destruct (mapM block xs w1) as [w2 [ls|e]]; cbn [fst] in *;
      exact (same_histories_trans _ _ _ Hk IH).
Qed.

(** What one epoch does to the histories, by the phase that fails. *)
Lemma run_epoch_histories_by_phase
    (dataloader_train dataloader_validation : list (batch F))
    (w w' : world F P Mdl G O) (r : result (P * P)) :
  NB1Epochs.keeps_histories train_block ->
  NB1Epochs.keeps_histories validation_block ->
  NB1.run_epoch train_block validation_block
                dataloader_train dataloader_validation w = (w', r) ->
  match snd ((model_train ;; mapM train_block dataloader_train) w) with
  | Raise e =>
      r = Raise e /\
      train_losses w' = train_losses w /\
      validation_losses w' = validation_losses w
  | Ok losses =>
      match dataloader_train with
      | [] =>
          r = Raise EmptyBatch /\
          train_losses w' = train_losses w /\
          validation_losses w' = validation_losses w
      | _ :: _ =>
          train_losses w'
            = train_losses w
              ++ [EpochSpec.average (length dataloader_train) losses] /\
          match r with
          | Ok (a, b) =>
              a = EpochSpec.average (length dataloader_train) losses /\
              validation_losses w' = validation_losses w ++ [b]
          | Raise _ => validation_losses w' = validation_losses w
          end
      end
  end.
Proof.
  intros Ht Hv Hrun. unfold NB1.run_epoch in Hrun.
  unfold bind at 1 in Hrun. unfold bind at 1.
  unfold model_train at 1 in Hrun. unfold model_train at 1.
  unfold modify at 1 in Hrun. unfold modify at 1.
  cbv beta iota in Hrun. cbv beta iota.
  rewrite for_each_sums_bind in Hrun. unfold bind at 1 in Hrun.
  pose proof (mapM_keeps_histories train_block dataloader_train Ht
                (with_model (set_training true) w)) as (Ht1 & Hv1).
  destruct (mapM train_block dataloader_train _) as [w1 [losses|e]];
    cbn [fst snd train_losses validation_losses with_model] in *;
    [|injection Hrun as <- <-; now repeat split].
  destruct dataloader_train as [|b0 rest].
  - cbn in Hrun. injection Hrun as <- <-. now repeat split.
  - rewrite (py_truediv_nonempty _ (b0 :: rest)), bind_lift_Ok in Hrun
      by discriminate.
    unfold EpochSpec.average.
    unfold bind at 1 in Hrun. unfold modify at 1 in Hrun.
    cbv beta iota in Hrun.
    unfold bind at 1 in Hrun. unfold model_eval at 1 in Hrun.
    unfold modify at 1 in Hrun. cbv beta iota in Hrun.
    unfold bind at 1 in Hrun. unfold no_grad in Hrun.
    match type of Hrun with
    | context [for_each dataloader_validation ?acc0 ?body ?w0] =>
        pose proof (accumulate_keeps_histories validation_block
                      dataloader_validation acc0 w0 Hv) as (Ht2 & Hv2)
    end.
    destruct (for_each dataloader_validation _ _ _) as [w3 [acc2|e]];
      cbn [fst snd train_losses validation_losses with_grad_enabled
           with_model with_train_losses] in *;
      [|injection Hrun as <- <-;
        cbn [train_losses validation_losses with_grad_enabled];
        split; congruence].
    unfold bind at 1 in Hrun. unfold lift at 1 in Hrun.
    destruct (py_truediv acc2 (length dataloader_validation)) as [b|e];
      [|injection Hrun as <- <-;
        cbn [train_losses validation_losses with_grad_enabled];
        split; congruence].
    unfold bind, modify, ret in Hrun. injection Hrun as <- <-.
    cbn [train_losses validation_losses with_grad_enabled
         with_validation_losses].
    split; [congruence|]. split; [reflexivity | congruence].
Qed.

(** X13: what an epoch does to the histories is decided by the phase that
    fails.  When a training step raises, or the train loader is empty,
    the epoch raises (that step's error, or the division error) and both
    histories are as before.  Once the training phase has succeeded on a
    non-empty loader, exactly one entry, the train average, has been
    appended to the train history; the epoch then either succeeds,
    returning that average and appending the validation average to the
    validation history, or raises with the validation history as
    before. *)
Theorem run_epoch_extends_histories
    (dataloader_train dataloader_validation : list (batch F))
    (w : world F P Mdl G O) :
  NB1Epochs.keeps_histories train_block ->
  NB1Epochs.keeps_histories validation_block ->
  let w' := fst (NB1.run_epoch train_block validation_block
                   dataloader_train dataloader_validation w) in
  let r := snd (NB1.run_epoch train_block validation_block
                  dataloader_train dataloader_validation w) in
  match snd ((model_train ;; mapM train_block dataloader_train) w) with
  | Raise e =>
      r = Raise e /\
      train_losses w' = train_losses w /\
      validation_losses w' = validation_losses w
  | Ok losses =>
      match dataloader_train with
      | [] =>
          r = Raise EmptyBatch /\
          train_losses w' = train_losses w /\
          validation_losses w' = validation_losses w
      | _ :: _ =>
          train_losses w'
            = train_losses w
              ++ [EpochSpec.average (length dataloader_train) losses] /\
          match r with
          | Ok (a, b) =>
              a = EpochSpec.average (length dataloader_train) losses /\
              validation_losses w' = validation_losses w ++ [b]
          | Raise _ => validation_losses w' = validation_losses w
          end
      end
  end.
Proof.
  intros Ht Hv.
  pose proof (run_epoch_histories_by_phase dataloader_train
                dataloader_validation w) as Hout.
  destruct (NB1.run_epoch train_block validation_block dataloader_train
              dataloader_validation w) as [w' r].
  exact (Hout w' r Ht Hv eq_refl).
Qed.

(** X14: an epoch never leaves gradient tracking switched off: whatever
    the outcome, and whatever the validation block does, grad mode after
    the epoch is what it was before, provided the training block leaves it
    alone. *)
Theorem run_epoch_restores_grad_mode
    (dataloader_train dataloader_validation : list (batch F))
    (w : world F P Mdl G O) :
  NB1Epochs.keeps_grad_mode train_block ->
  grad_enabled (fst (NB1.run_epoch train_block validation_block
                       dataloader_train dataloader_validation w))
  = grad_enabled w.
Proof.
  intros Ht. unfold NB1.run_epoch.
  unfold bind at 1. unfold model_train at 1. unfold modify at 1.
  unfold bind at 1.
  pose proof (accumulate_keeps_grad_mode train_block dataloader_train
                (py_of_nat 0) (with_model (set_training true) w) Ht) as Hg1.
  destruct (for_each dataloader_train _ _ _) as [w1 [acc|e]];
    cbn [fst snd grad_enabled with_model] in *; [|exact Hg1].
  unfold bind at 1. unfold lift at 1.
  destruct (py_truediv acc (length dataloader_train)) as [a|e];
    cbn [fst snd]; [|exact Hg1].
  unfold bind at 1. unfold modify at 1.
  unfold bind at 1. unfold model_eval at 1. unfold modify at 1.
  unfold bind at 1. unfold no_grad.
  destruct (for_each dataloader_validation _ _ _) as [w3 [acc2|e]];
    cbn [fst snd grad_enabled with_grad_enabled with_model with_train_losses];
    [|exact Hg1].
  unfold bind at 1. unfold lift at 1.
  destruct (py_truediv acc2 (length dataloader_validation)) as [b|e];
    cbn; exact Hg1.
Qed.

Lemma training_loop_histories_outcomes
    (dataloader_train dataloader_validation : list (batch F)) (n : nat) :
  NB1Epochs.keeps_histories train_block ->
  NB1Epochs.keeps_histories validation_block ->
  forall (start : nat) (w w' : world F P Mdl G O) (r : result unit),
  for_each (seq start n) tt
    (fun _ epoch =>
       NB1.run_epoch train_block validation_block
                     dataloader_train dataloader_validation ;;
       ret tt) w = (w', r) ->
  exists ta va,
    train_losses w' = train_losses w ++ ta /\
    validation_losses w' = validation_losses w ++ va /\
    match r with
    | Ok _ => length ta = n /\ length va = n
    | Raise _ =>
        length va < n /\ (length ta = length va \/ length ta = S (length va))
    end.
Proof.
  intros Ht Hv. induction n as [|n IH]; intros start w w' r Hrun;
    cbn [seq for_each] in Hrun.
  - injection Hrun as <- <-. exists [], []. rewrite !app_nil_r. now repeat split.
  - unfold bind at 1 in Hrun. unfold bind at 1 in Hrun.
    pose proof (run_epoch_histories_outcomes dataloader_train
                  dataloader_validation w) as Hstep.
    destruct (NB1.run_epoch train_block validation_block dataloader_train
                dataloader_validation w) as [w1 [[a b]|e]].
    + destruct (Hstep w1 _ Ht Hv eq_refl) as (Ha & Hb).
      unfold ret at 1 in Hrun.
      destruct (IH (S start) w1 w' r Hrun) as (ta & va & Hta & Hva & Hout).
      exists (a :: ta), (b :: va).
      rewrite Hta, Hva, Ha, Hb, <- !app_assoc.
      split; [reflexivity|]. split; [reflexivity|].
      destruct r; cbn [length]; lia.
    + destruct (Hstep w1 _ Ht Hv eq_refl) as (Hb & [Ha | (a & Ha)]);
        injection Hrun as <- <-.
      * exists [], []. rewrite !app_nil_r. cbn.
        repeat split; try assumption; lia.
      * exists [a], []. rewrite app_nil_r. cbn.
        repeat split; try assumption; lia.
Qed.

(** X15: the loop over epochs.  When it completes, each history has grown
    by exactly [n_epochs] entries (by none when [n_epochs <= 0]); when an
    epoch raises, the loop stops there, the validation history has grown by
    the number of completed epochs, fewer than [n_epochs], and the train
    history by that number or one more. *)
Theorem training_loop_extends_histories
    (n_epochs : Z)
    (dataloader_train dataloader_validation : list (batch F))
    (w : world F P Mdl G O) :
  NB1Epochs.keeps_histories train_block ->
  NB1Epochs.keeps_histories validation_block ->
  let w' := fst (NB1Epochs.training_loop train_block validation_block n_epochs
                   dataloader_train dataloader_validation w) in
  exists ta va,
    train_losses w' = train_losses w ++ ta /\
    validation_losses w' = validation_losses w ++ va /\
    match snd (NB1Epochs.training_loop train_block validation_block n_epochs
                 dataloader_train dataloader_validation w) with
    | Ok _ => length ta = Z.to_nat n_epochs /\ length va = Z.to_nat n_epochs
    | Raise _ =>
        length va < Z.to_nat n_epochs /\
        (length ta = length va \/ length ta = S (length va))
    end.
Proof.
  intros Ht Hv. unfold NB1Epochs.training_loop, NB1Epochs.range_from_1.
  pose proof (training_loop_histories_outcomes dataloader_train
                dataloader_validation (Z.to_nat n_epochs) Ht Hv 1 w) as Hout.
  destruct (for_each (seq 1 (Z.to_nat n_epochs)) tt _ w) as [w' r].
  exact (Hout w' r eq_refl).
Qed.

End Blocks.

Section ValidationPhase.
Variable loss_fn : tensor F -> tensor F -> result F.
Variable autograd : Mdl -> tensor F -> tensor F -> G.
Variable train_block : batch F -> M (world F P Mdl G O) (loss_t F G).

(** X16: once the training phase of an epoch has succeeded on a non-empty
    train loader, the model the epoch leaves is the model that phase left,
    switched to evaluation mode, with the same optimizer and gradient
    buffers, whether the validation phase then succeeds or raises. *)
Theorem epoch_keeps_what_training_left
    (dataloader_train dataloader_validation : list (batch F))
    (batch_idx : nat) (w w1 : world F P Mdl G O) (losses : list (loss_t F G)) :
  dataloader_train <> [] ->
  (model_train ;; mapM train_block dataloader_train) w = (w1, Ok losses) ->
  let w' := fst (NB1.run_epoch train_block
                   (fun b => NB2Lightning.validation_step loss_fn autograd
                               b batch_idx)
                   dataloader_train dataloader_validation w) in
  model w' = set_training false (model w1) /\
  optimizer w' = optimizer w1 /\
  grad w' = grad w1.
Proof.
  intros Hne Hphase w'. subst w'.
  destruct (NB1.run_epoch train_block _ dataloader_train
              dataloader_validation w) as [w' r] eqn:Hrun.
  cbn [fst]. unfold NB1.run_epoch in Hrun.
  unfold bind at 1 in Hrun. unfold bind at 1 in Hphase.
  destruct (model_train w) as [w0 [[]|e]]; [|discriminate].
  rewrite for_each_sums_bind in Hrun. unfold bind at 1 in Hrun.
  rewrite Hphase in Hrun.
  rewrite (py_truediv_nonempty _ _ Hne), bind_lift_Ok in Hrun.
  unfold bind at 1 in Hrun. unfold modify at 1 in Hrun. cbv beta iota in Hrun.
  unfold bind at 1 in Hrun. unfold model_eval at 1 in Hrun.
  unfold modify at 1 in Hrun. cbv beta iota in Hrun.
  unfold bind at 1 in Hrun.
  match type of Hrun with
  | context [no_grad ?body ?w0] =>
      assert (Hfr : frame w0 (fst (no_grad body w0)))
  end.
  { apply no_grad_frame. intros w2. apply for_each_frame.
    intros acc b w3. unfold bind.
    pose proof (validation_step_keeps_frame loss_fn autograd b batch_idx w3)
      as (Hf & _).
    destruct (NB2Lightning.validation_step loss_fn autograd b batch_idx w3)
      as [w4 [l|e]]; exact Hf. }
  destruct (no_grad _ _) as [w3 [acc|e]]; unfold frame in Hfr;
    cbn [fst snd model optimizer grad with_model with_train_losses] in Hfr;
    destruct Hfr as (Hm & Ho & Hg & _).
  - unfold bind at 1 in Hrun. unfold lift at 1 in Hrun.
    destruct (py_truediv acc (length dataloader_validation)) as [b|e];
      cbn in Hrun; injection Hrun as <- <-; cbn; now repeat split.
  - injection Hrun as <- <-. now repeat split.
Qed.

End ValidationPhase.
End HistoryFacts.

(** ** Sizes of the split *)

Section SplitSizes.
Context {F : Type} `{Dtype F}.

Lemma random_split_lengths_value (n : nat) :
  TorchData.random_split_lengths n = (n - n / 5, n / 5).
Proof.
  unfold TorchData.random_split_lengths.
  pose proof (Nat.div_mod_eq (n * 4) 5) as Ha.
  pose proof (Nat.div_mod_eq n 5) as Hb.
  pose proof (Nat.mod_upper_bound (n * 4) 5) as Hra.
  pose proof (Nat.mod_upper_bound n 5) as Hrb.
  destruct (n - (n * 4 / 5 + n / 5)) as [|[|k]] eqn:E; [| |lia];
    cbn [seq fold_left Nat.even fst snd]; f_equal; lia.
Qed.

(** X17: the split of [n] indices gives the validation subset [n / 5]
    indices (integer division) and the train subset the other
    [n - n / 5], so the validation subset is empty exactly when [n < 5];
    and every index it hands out is a valid index of a dataset of [n]
    rows and labels. *)
Theorem random_split_sizes_and_indices
    (df : NB1.DataFrame F) (ts : list F) (n : nat) (randperm : list nat) :
  Permutation randperm (seq 0 n) ->
  NB1.wf_frame df -> length (NB1.values df) = n -> length ts = n ->
  let train := fst (TorchData.random_split n randperm) in
  let validation := snd (TorchData.random_split n randperm) in
  length train = n - n / 5 /\
  length validation = n / 5 /\
  (validation = [] <-> n < 5) /\
  (forall j, In j (train ++ validation) ->
     NB1.CancerDataset_getitem (NB1.CancerDataset_init df ts) (Z.of_nat j)
     = Ok ({| shape := [NB1.ncolumns df]; data := nth j (NB1.values df) [] |},
           scalar (nth j ts fzero))).
Proof.
  intros Hperm Hwf Hn Hm train validation.
  assert (Hlen : length randperm = n).
  { rewrite (Permutation_length Hperm). apply length_seq. }
  assert (Hcov : train ++ validation = randperm)
    by (apply random_split_covers; assumption).
  assert (Htr : length train = n - n / 5).
  { unfold train, TorchData.random_split.
    rewrite random_split_lengths_value. cbn [fst].
    rewrite length_firstn, Hlen. lia. }
  assert (Hva : length validation = n / 5).
  { unfold validation, TorchData.random_split.
    rewrite random_split_lengths_value. cbn [snd].
    rewrite length_firstn, length_skipn, Hlen.
    pose proof (Nat.div_mod_eq n 5). lia. }
  split; [exact Htr|]. split; [exact Hva|]. split.
  - split.
    + intros Hnil. rewrite Hnil in Hva. cbn [length] in Hva.
      pose proof (Nat.div_mod_eq n 5).
      pose proof (Nat.mod_upper_bound n 5). lia.
    + intros Hsmall. apply length_zero_iff_nil. rewrite Hva.
      now apply Nat.div_small.
  - intros j Hj. rewrite Hcov in Hj.
    apply (Permutation_in _ Hperm), in_seq in Hj.
    replace j with (Z.to_nat (Z.of_nat j)) at 2 3 by apply Nat2Z.id.
    apply getitem_pair; try assumption; rewrite ?Hn, ?Hm;
      try (apply wrap_index_in_range); lia.
Qed.

End SplitSizes.

(** ** Concrete runs of the further properties *)

Section MoreRuns.
Import Float32 Demo DemoInputs.

Lemma squared_error_checks_shape : NB1Epochs.checks_shape squared_error.
Proof.
  intros y_hat y Hdiff. unfold squared_error, same_shape.
  destruct (list_eq_dec Nat.eq_dec (shape y_hat) (shape y));
    [contradiction | reflexivity].
Qed.

Lemma train_step_failure_updates_nothing_witness :
  snd (train_step narrow_batch w0) = Raise RuntimeError /\
  fst (train_step narrow_batch w0) = with_grad None w0.
Proof.
  assert (Hfail : snd (train_step narrow_batch w0) = Raise RuntimeError)
    by (vm_compute; reflexivity).
  split; [exact Hfail|].
  exact (train_step_failure_updates_nothing squared_error squared_error_grad
           grad_sum sgd_update narrow_batch w0 RuntimeError Hfail).
Defined.

Lemma train_step_needs_grad_mode_witness :
  grad_enabled w_off = false /\
  exists e, train_step batch0 w_off = (with_grad None w_off, Raise e).
Proof.
  split; [reflexivity|].
  exact (proj1 (train_step_needs_grad_mode squared_error squared_error_grad
                  grad_sum sgd_update (fst batch0) (snd batch0) w_off eq_refl)).
Defined.

Lemma train_step_agrees_with_training_step_witness :
  grad_enabled w0 = true /\
  snd (train_step batch0 w0)
  = snd (NB2Lightning.training_step squared_error squared_error_grad batch0 0 w0).
Proof.
  split; [reflexivity|].
  exact (train_step_agrees_with_training_step squared_error squared_error_grad
           grad_sum sgd_update batch0 0 w0 eq_refl).
Defined.

Lemma forward_accepts_exactly_width_30_witness :
  shaped_nb1 model0 /\
  shape (fst batch0) = [2] ++ [30] /\
  exists y, NB1.forward model0 (fst batch0) = Ok y /\
            shape y = [2] ++ [1] /\ numel y = numel_of [2].
Proof.
  assert (Hm : shaped_nb1 model0) by apply nb1_init_shaped.
  split; [exact Hm|]. split; [reflexivity|].
  exact (proj1 (proj1 (forward_accepts_exactly_width_30 (fst batch0)) model0 Hm)
           [2] eq_refl).
Defined.

Lemma fresh_model_accepts_batches_witness :
  shape (fst batch0) = [2; 30] /\
  exists y,
    NB2Sweep.forward
      (fst (NB2Sweep.BreastCancerClassifier_init 2 4 (@nil f32))) (fst batch0)
    = Ok y /\ shape y = [2; 1] /\ numel y = 2.
Proof.
  split; [reflexivity|].
  exact (proj2 (proj2 (fresh_model_accepts_batches (list f32) _ [] (fst batch0) 2
                         eq_refl)) 2%Z 4).
Defined.

Lemma CancerDataset_getitem_unchecked_lengths_witness :
  NB1.wf_frame frame0 /\
  length (NB1.values frame0) = 2 /\
  length [f32_of_Z 7] = 1 /\
  (- Z.of_nat (Nat.min 2 1) <= -1 < 0)%Z /\
  NB1.CancerDataset_getitem (NB1.CancerDataset_init frame0 [f32_of_Z 7]) (-1)
  = Ok ({| shape := [2]; data := [f32_of_Z 3; f32_of_Z 4] |},
        scalar (f32_of_Z 7)).
Proof.
  assert (Hwf : NB1.wf_frame frame0) by (repeat constructor).
  assert (Hi : (- Z.of_nat (Nat.min 2 1) <= -1 < 0)%Z) by (cbn; lia).
  split; [exact Hwf|]. split; [reflexivity|]. split; [reflexivity|].
  split; [exact Hi|].
  exact (proj1 (proj2 (proj2
           (CancerDataset_getitem_unchecked_lengths frame0 [f32_of_Z 7] 2 1 (-1)
              Hwf eq_refl eq_refl))) Hi).
Defined.

Lemma dataset_sample_goes_through_model_witness :
  NB1.wf_frame frame30 /\
  NB1.ncolumns frame30 = 30 /\
  length (NB1.values frame30) = 2 /\
  length [f32_of_Z 0; f32_of_Z 1] = 2 /\
  (- Z.of_nat 2 <= -2 < Z.of_nat 2)%Z /\
  exists x y,
    NB1.CancerDataset_getitem
      (NB1.CancerDataset_init frame30 [f32_of_Z 0; f32_of_Z 1]) (-2)
    = Ok (x, y) /\ shape x = [30] /\ shape y = [].
Proof.
  assert (Hwf : NB1.wf_frame frame30) by (repeat constructor).
  assert (Hi : (- Z.of_nat 2 <= -2 < Z.of_nat 2)%Z) by (cbn; lia).
  split; [exact Hwf|]. split; [reflexivity|]. split; [reflexivity|].
  split; [reflexivity|]. split; [exact Hi|].
  destruct (dataset_sample_goes_through_model frame30
              [f32_of_Z 0; f32_of_Z 1] 2 (-2) Hwf eq_refl eq_refl eq_refl Hi)
    as (x & y & Hget & Hx & Hy & _).
  exists x, y. now repeat split.
Defined.

Lemma single_sample_batch_raises_witness :
  NB1Epochs.checks_shape squared_error /\
  shape (fst single_batch) = [1; 30] /\
  shape (snd single_batch) = [1] /\
  shaped_nb1 (model w0) /\
  train_step single_batch w0 = (with_grad None w0, Raise ValueError).
Proof.
  assert (Hm : shaped_nb1 (model w0)) by apply nb1_init_shaped.
  split; [exact squared_error_checks_shape|].
  split; [reflexivity|]. split; [reflexivity|]. split; [exact Hm|].
  exact (proj2 (single_sample_batch_raises (P:=spec_float) (O:=unit)
                  squared_error
                  (fst single_batch) (snd single_batch)
                  squared_error_checks_shape eq_refl eq_refl)
           w0 squared_error_grad grad_sum sgd_update Hm).
Defined.

Lemma run_epoch_extends_histories_witness :
  NB1Epochs.keeps_histories train_step /\
  NB1Epochs.keeps_histories validation_step /\
  snd ((model_train ;; mapM train_step [batch0]) w0) = Ok losses1 /\
  train_losses (fst (NB1.run_epoch train_step validation_step [batch0] [] w0))
    = train_losses w0 ++ [EpochSpec.average 1 losses1] /\
  validation_losses (fst (NB1.run_epoch train_step validation_step [batch0] [] w0))
    = validation_losses w0.
Proof.
  assert (Ht : NB1Epochs.keeps_histories train_step)
    by apply train_step_keeps_histories.
  assert (Hv : NB1Epochs.keeps_histories validation_step)
    by apply (validation_step_keeps_histories squared_error squared_error_grad 0).
  assert (Hphase : snd ((model_train ;; mapM train_step [batch0]) w0) = Ok losses1)
    by (vm_compute; reflexivity).
  split; [exact Ht|]. split; [exact Hv|]. split; [exact Hphase|].
  pose proof (run_epoch_extends_histories train_step validation_step
                [batch0] [] w0 Ht Hv) as Hx.
  vm_compute in Hx. vm_compute. exact Hx.
Defined.

Lemma run_epoch_restores_grad_mode_witness :
  NB1Epochs.keeps_grad_mode train_step /\
  grad_enabled (fst (NB1.run_epoch train_step validation_step [batch0] [] w0))
  = grad_enabled w0.
Proof.
  assert (Ht : NB1Epochs.keeps_grad_mode train_step)
    by apply train_step_keeps_grad_mode.
  split; [exact Ht|].
  exact (run_epoch_restores_grad_mode train_step validation_step
           [batch0] [] w0 Ht).
Defined.

Lemma training_loop_extends_histories_witness :
  NB1Epochs.keeps_histories train_step /\
  NB1Epochs.keeps_histories validation_step /\
  exists ta va,
    train_losses (fst (NB1Epochs.training_loop train_step validation_step 2
                         [batch0] [batch0] w0)) = train_losses w0 ++ ta /\
    validation_losses (fst (NB1Epochs.training_loop train_step validation_step 2
                              [batch0] [batch0] w0))
      = validation_losses w0 ++ va /\
    match snd (NB1Epochs.training_loop train_step validation_step 2
                 [batch0] [batch0] w0) with
    | Ok _ => length ta = Z.to_nat 2 /\ length va = Z.to_nat 2
    | Raise _ =>
        length va < Z.to_nat 2 /\
        (length ta = length va \/ length ta = S (length va))
    end.
Proof.
  assert (Ht : NB1Epochs.keeps_histories train_step)
    by apply train_step_keeps_histories.
  assert (Hv : NB1Epochs.keeps_histories validation_step)
    by apply (validation_step_keeps_histories squared_error squared_error_grad 0).
  split; [exact Ht|]. split; [exact Hv|].
  exact (training_loop_extends_histories train_step validation_step 2
           [batch0] [batch0] w0 Ht Hv).
Defined.

Example training_loop_two_epochs :
  snd (NB1Epochs.training_loop train_step validation_step 2
         [batch0] [batch0] w0) = Ok tt /\
  length (train_losses (fst (NB1Epochs.training_loop train_step validation_step 2
                               [batch0] [batch0] w0))) = 2 /\
  length (validation_losses
            (fst (NB1Epochs.training_loop train_step validation_step 2
                    [batch0] [batch0] w0))) = 2.
Proof. vm_compute. repeat split. Qed.

Lemma epoch_keeps_what_training_left_witness :
  [batch0] <> [] /\
  (model_train ;; mapM train_step [batch0]) w0 = (w1, Ok losses1) /\
  model (fst (NB1.run_epoch train_step validation_step [batch0] [single_batch] w0))
    = set_training false (model w1).
Proof.
  assert (Hne : [batch0] <> []) by discriminate.
  assert (Hphase : (model_train ;; mapM train_step [batch0]) w0 = (w1, Ok losses1))
    by (vm_compute; reflexivity).
  split; [exact Hne|]. split; [exact Hphase|].
  exact (proj1 (epoch_keeps_what_training_left squared_error squared_error_grad
                  train_step [batch0] [single_batch] 0 w0 w1 losses1
                  Hne Hphase)).
Defined.

Lemma random_split_sizes_and_indices_witness :
  Permutation [1; 0] (seq 0 2) /\
  NB1.wf_frame frame0 /\
  length (NB1.values frame0) = 2 /\
  length [f32_of_Z 0; f32_of_Z 1] = 2 /\
  length (fst (TorchData.random_split 2 [1; 0])) = 2 - 2 / 5 /\
  snd (TorchData.random_split 2 [1; 0]) = [].
Proof.
  assert (Hp : Permutation [1; 0] (seq 0 2)) by apply perm_swap.
  assert (Hwf : NB1.wf_frame frame0) by (repeat constructor).
  split; [exact Hp|]. split; [exact Hwf|]. split; [reflexivity|].
  split; [reflexivity|].
  pose proof (random_split_sizes_and_indices frame0 [f32_of_Z 0; f32_of_Z 1]
                2 [1; 0] Hp Hwf eq_refl eq_refl) as (Htr & _ & Hempty & _).
  split; [exact Htr | apply Hempty; lia].
Defined.

Example relu_keeps_signed_zero :
  data (relu (tensor1 [S754_zero true; S754_zero false; f32_of_Z (-3); f32_of_Z 3]))
  = [S754_zero true; S754_zero false; S754_zero false; f32_of_Z 3].
Proof. vm_compute. reflexivity. Qed.

Example dot_accumulates_left_to_right :
  dot [f32_of_Z 16777216; f32_of_Z 1; f32_of_Z 1]
      [f32_of_Z 1; f32_of_Z 1; f32_of_Z 1]
  = f32_of_Z 16777216.
Proof. vm_compute. reflexivity. Qed.

Example index_beyond_int64 :
  wrap_index 2 9223372036854775807 = Raise IndexError /\
  wrap_index 2 9223372036854775808 = Raise ValueError /\
  wrap_index 2 (-9223372036854775808) = Raise IndexError /\
  wrap_index 2 (-9223372036854775809) = Raise ValueError.
Proof. repeat split. Qed.

End MoreRuns.
